(** * TowerJetInput: calorimeter towers to vertex-corrected jet inputs

    A shallow embedding of [TowerJetInput::get_input] (and of the data it
    reads and writes) together with the properties the specification
    states about it.

    Conventions of the embedding:
    - a pointer that may be null is an [option];
    - [assert] is active (the source calls it "force quit"): a failed
      assertion ends the process, outcome [Aborted];
    - dereferencing [begin()] of an empty map is undefined behaviour,
      outcome [Undefined];
    - the function-local [static bool once] is the state threaded through
      the calls of one process;
    - what the function does to the outside (node lookups by name, lines
      written to [cout]) is collected as a list of events;
    - floating point is an interface, [Arith]: the code is written once
      over it and read at IEEE binary64 ([binary64], over any libm) or
      at the real numbers ([ideal], no rounding). *)

From Stdlib Require Import Floats.PrimFloat.
From Stdlib Require Import ZArith Reals Lra Lia.
From stdpp Require Import base option list gmap strings.
From stdpp Require Import pretty.

Set Default Proof Using "Type".

(** ** Arithmetic *)

(** The operations [get_input] applies to [double] and [float] values,
    over the type [F] of these values. [vtxz] is a [float] in the
    source; its promotion to [double] is exact and keeps NaN, so one
    carrier serves both. [isfinite] is not called by the code: it is
    there to state what the specification says about finite and
    non-finite vertices. *)
Class Arith (F : Type) := {
  fsub : F -> F -> F;
  fmul : F -> F -> F;
  fdiv : F -> F -> F;
  isnan : F -> bool;
  isfinite : F -> bool;
  atan2 : F -> F -> F;
  asinh : F -> F;
  cosh : F -> F;
  sinh : F -> F;
  cos : F -> F;
  sin : F -> F;
  nan_not_finite : forall x, isnan x = true -> isfinite x = false
}.

(** The six functions of [<cmath>] the code calls, at type [double]. *)
Record Libm := {
  m_atan2 : float -> float -> float;
  m_asinh : float -> float;
  m_cosh : float -> float;
  m_sinh : float -> float;
  m_cos : float -> float;
  m_sin : float -> float
}.

(** IEEE 754 binary64, with whatever libm the program is linked against. *)
Definition binary64 (L : Libm) : Arith float := {|
  fsub := PrimFloat.sub;
  fmul := PrimFloat.mul;
  fdiv := PrimFloat.div;
  isnan := PrimFloat.is_nan;
  isfinite := PrimFloat.is_finite;
  atan2 := m_atan2 L;
  asinh := m_asinh L;
  cosh := m_cosh L;
  sinh := m_sinh L;
  cos := m_cos L;
  sin := m_sin L;
  nan_not_finite := fun x (Hnan : PrimFloat.is_nan x = true) =>
    eq_ind_r (x:=true) (fun b => negb (b || PrimFloat.is_infinity x) = false)
      eq_refl Hnan
|}.

(** The angle of the point [(x, y)], in (-PI, PI]. *)
Definition Ratan2 (y x : R) : R :=
  if Rlt_dec 0 x then atan (y / x)
  else if Rlt_dec x 0 then
    (if Rle_dec 0 y then atan (y / x) + PI else atan (y / x) - PI)
  else if Rlt_dec 0 y then PI / 2
  else if Rlt_dec y 0 then - (PI / 2)
  else 0.

(** Exact real arithmetic: every value is finite and none is NaN. *)
Definition ideal : Arith R := {|
  fsub := Rminus;
  fmul := Rmult;
  fdiv := Rdiv;
  isnan := fun _ => false;
  isfinite := fun _ => true;
  atan2 := Ratan2;
  asinh := arcsinh;
  cosh := Rtrigo_def.cosh;
  sinh := Rtrigo_def.sinh;
  cos := Rtrigo_def.cos;
  sin := Rtrigo_def.sin;
  nan_not_finite := fun _ (Hnan : false = true) =>
    match Bool.diff_false_true Hnan with end
|}.

(** ** Data model *)

(** Modelled from the spec: [RawTowerDefs::keytype] is declared in
    RawTowerDefs.h, which is not among the sources; the spec's tower id,
    an integer. No arithmetic is done on it. *)
Definition keytype := N.

Module Jet.

(** Modelled from the spec: [enum Jet::SRC] is declared in Jet.h, which
    is not among the sources. The eight enumerators [get_input] names,
    and [OTHER] for every remaining value of the enumeration. *)
Inductive SRC :=
| CEMC_TOWER
| HCALIN_TOWER
| HCALOUT_TOWER
| FEMC_TOWER
| FHCAL_TOWER
| CEMC_TOWER_SUB1
| HCALIN_TOWER_SUB1
| HCALOUT_TOWER_SUB1
| OTHER (code : N).

End Jet.

Section Data.
Variable F : Type.

(** Modelled from the spec: [RawTower] is declared in RawTower.h, which
    is not among the sources; the spec's tower record, an id and an
    energy, the two members the code reads. *)
Record RawTower := {
  get_id : keytype;
  get_energy : F
}.

(** Modelled from the spec: [RawTower::get_key] is declared in RawTower.h,
    which is not among the sources; the spec's tower record has one
    identifier, by which its geometry is looked up. *)
Definition get_key (tower : RawTower) : keytype := get_id tower.

(** Modelled from the spec: [RawTowerGeom] is declared in RawTowerGeom.h,
    which is not among the sources; the spec's tower geometry, the
    centre and its radius. *)
Record RawTowerGeom := {
  get_center_x : F;
  get_center_y : F;
  get_center_z : F;
  get_center_radius : F
}.

(** Modelled from the spec: [RawTowerContainer] is declared in
    RawTowerContainer.h, which is not among the sources; the spec's
    enumerable collection of towers, here the entries of the container
    in the order [getTowers()] iterates them. *)
Definition RawTowerContainer := list (keytype * RawTower).

(** The range [getTowers()] returns. *)
Definition getTowers (towers : RawTowerContainer) : list (keytype * RawTower) :=
  towers.

(** Modelled from the spec: [RawTowerGeomContainer] is declared in
    RawTowerGeomContainer.h, which is not among the sources; the spec's
    lookup of a geometry by tower id, a null pointer for a key the
    container does not hold. *)
Definition get_tower_geometry (geom : gmap keytype RawTowerGeom) (key : keytype)
  : option RawTowerGeom := geom !! key.

(** Modelled from the spec: [GlobalVertex] is declared in GlobalVertex.h,
    which is not among the sources; the spec's event vertex, of which
    the code reads [z]. *)
Record GlobalVertex := {
  get_z : F
}.

(** Modelled from the spec: [GlobalVertexMap] is declared in
    GlobalVertexMap.h, which is not among the sources; the spec's
    enumerable collection of vertices, here the entries of the map in
    iteration order. The mapped value is a pointer the code tests,
    [None] when null. *)
Definition GlobalVertexMap := list (keytype * option GlobalVertex).

(** Modelled from the spec: the node tree is declared in phool, which is
    not among the sources; the spec's event data store, a lookup by key
    of typed data products. A node holds one of the three products
    [get_input] asks for, or something else. *)
Inductive PHObject :=
| NodeVertexMap (vertexmap : GlobalVertexMap)
| NodeTowers (towers : RawTowerContainer)
| NodeGeom (geom : gmap keytype RawTowerGeom)
| NodeOther.

(** The node tree under [topNode], by node name. *)
Definition PHCompositeNode := gmap string PHObject.

(** Modelled from the spec: [JetV1] is declared in JetV1.h, which is not
    among the sources. A four-momentum and the list of constituents
    [(source, id)]; [new JetV1()] has no constituent and [insert_comp]
    adds one. *)
Record JetV1 := {
  get_px : F;
  get_py : F;
  get_pz : F;
  get_e : F;
  comp : list (Jet.SRC * keytype)
}.

(** The constituents of [new JetV1()]. *)
Definition JetV1_comp_new : list (Jet.SRC * keytype) := [].

(** [insert_comp(src, id)] on the constituents [c]. *)
Definition insert_comp (c : list (Jet.SRC * keytype)) (src : Jet.SRC) (id : keytype)
  : list (Jet.SRC * keytype) := c ++ [(src, id)].

End Data.

Arguments Build_RawTower {F} _ _.
Arguments get_id {F} _.
Arguments get_energy {F} _.
Arguments get_key {F} _.
Arguments Build_RawTowerGeom {F} _ _ _ _.
Arguments get_center_x {F} _.
Arguments get_center_y {F} _.
Arguments get_center_z {F} _.
Arguments get_center_radius {F} _.
Arguments getTowers {F} _.
Arguments get_tower_geometry {F} _ _.
Arguments Build_GlobalVertex {F} _.
Arguments get_z {F} _.
Arguments NodeVertexMap {F} _.
Arguments NodeTowers {F} _.
Arguments NodeGeom {F} _.
Arguments NodeOther {F}.
Arguments Build_JetV1 {F} _ _ _ _ _.
Arguments get_px {F} _.
Arguments get_py {F} _.
Arguments get_pz {F} _.
Arguments get_e {F} _.
Arguments comp {F} _.

(** The two members of [TowerJetInput]. *)
Record TowerJetInput := {
  _verbosity : Z;
  _input : Jet.SRC
}.

(** [TowerJetInput::TowerJetInput(Jet::SRC input)] *)
Definition TowerJetInput_new (input : Jet.SRC) : TowerJetInput :=
  {| _verbosity := 0; _input := input |}.

(** ** Effects *)

(** What a call does to the outside: a node lookup by name through
    [findNode::getClass], or a line written to [cout]. *)
Inductive event :=
| GetClass (name : string)
| Cout (line : string).

#[global] Instance event_eq_dec : EqDecision event.
Proof. solve_decision. Defined.

(** How a computation ends: it returns, it stops in a failed assertion,
    or its behaviour is undefined. *)
Inductive outcome (X : Type) :=
| Returned (x : X)
| Aborted
| Undefined.
Arguments Returned {X} x.
Arguments Aborted {X}.
Arguments Undefined {X}.

(** A computation started with a value of the static flag [once]: how it
    ends, the flag afterwards and the events in the order they happened. *)
Record run (X : Type) := Run {
  result : outcome X;
  once_after : bool;
  events : list event
}.
Arguments Run {X} _ _ _.
Arguments result {X} _.
Arguments once_after {X} _.
Arguments events {X} _.

Definition M (X : Type) : Type := bool -> run X.

(** Sequencing: the second computation starts with the flag the first
    left and its events follow those of the first; nothing follows a
    computation that does not return. *)

#[global] Instance M_ret : MRet M := fun X x once => Run (Returned x) once [].

#[global] Instance M_bind : MBind M := fun X Y f m once =>
  let r := m once in
  match result r with
  | Returned x =>
      let r' := f x (once_after r) in
      Run (result r') (once_after r') (events r ++ events r')
  | Aborted => Run Aborted (once_after r) (events r)
  | Undefined => Run Undefined (once_after r) (events r)
  end.

Definition abort {X} : M X := fun once => Run Aborted once [].
Definition undefined {X} : M X := fun once => Run Undefined once [].
Definition emit (e : event) : M unit := fun once => Run (Returned tt) once [e].

(** Reading and writing [once]. *)
Definition get_once : M bool := fun once => Run (Returned once) once [].
Definition set_once (b : bool) : M unit := fun _ => Run (Returned tt) b [].

(** [cout << line << endl] *)
Definition cout (line : string) : M unit := emit (Cout line).

(** [if (b) m;] *)
Definition when (b : bool) (m : M unit) : M unit := if b then m else mret tt.

(** [assert(e)]: nothing when [e] holds, the end of the process otherwise. *)
Definition c_assert (e : bool) : M unit := if e then mret tt else abort.

(** ** The lines written to [cout] *)

Definition msg_entered : string := "TowerJetInput::process_event -- entered".
Definition msg_exited : string := "TowerJetInput::process_event -- exited".
Definition msg_fatal : string :=
  "TowerJetInput::get_input - Fatal Error - GlobalVertexMap node is missing. Please turn on the do_global flag in the main macro in order to reconstruct the global vertex.".
Definition msg_nan : string :=
  "TowerJetInput::get_input - WARNING - vertex is NAN. Drop all tower inputs (further NAN-vertex warning will be suppressed).".

Section Model.
Context {F : Type} {A : Arith F}.

(** ** Looking up the nodes *)

(** Modelled from the spec: [findNode::getClass<T>(topNode, name)] is
    declared in phool/getClass.h, which is not among the sources. The
    object of the node called [name] when there is one and it is a [T],
    a null pointer otherwise. *)
Definition find_GlobalVertexMap (topNode : PHCompositeNode F) (name : string)
  : option (GlobalVertexMap F) :=
  match topNode !! name with
  | Some (NodeVertexMap vertexmap) => Some vertexmap
  | _ => None
  end.

(** [findNode::getClass<RawTowerContainer>], as above. *)
Definition find_RawTowerContainer (topNode : PHCompositeNode F) (name : string)
  : option (RawTowerContainer F) :=
  match topNode !! name with
  | Some (NodeTowers towers) => Some towers
  | _ => None
  end.

(** [findNode::getClass<RawTowerGeomContainer>], as above. *)
Definition find_RawTowerGeomContainer (topNode : PHCompositeNode F) (name : string)
  : option (gmap keytype (RawTowerGeom F)) :=
  match topNode !! name with
  | Some (NodeGeom geom) => Some geom
  | _ => None
  end.

(** A call of [findNode::getClass], seen from outside. *)
Definition getClass {T} (find : PHCompositeNode F -> string -> option T)
    (topNode : PHCompositeNode F) (name : string) : M (option T) :=
  emit (GetClass name);; mret (find topNode name).

(** [vertexmap->begin()->second] *)
Definition begin_second (vertexmap : GlobalVertexMap F) : M (option (GlobalVertex F)) :=
  match vertexmap with
  | [] => undefined
  | (_, vtx) :: _ => mret vtx
  end.

(** ** [TowerJetInput::get_input] *)

(** The names of the tower node and of the geometry node each branch of
    the [if]/[else if] chain of lines 57 to 107 looks up; [None] for the
    final [else]. The branches differ in these two names only. *)
Definition node_names (input : Jet.SRC) : option (string * string) :=
  match input with
  | Jet.CEMC_TOWER => Some ("TOWER_CALIB_CEMC", "TOWERGEOM_CEMC")
  | Jet.HCALIN_TOWER => Some ("TOWER_CALIB_HCALIN", "TOWERGEOM_HCALIN")
  | Jet.HCALOUT_TOWER => Some ("TOWER_CALIB_HCALOUT", "TOWERGEOM_HCALOUT")
  | Jet.FEMC_TOWER => Some ("TOWER_CALIB_FEMC", "TOWERGEOM_FEMC")
  | Jet.FHCAL_TOWER => Some ("TOWER_CALIB_FHCAL", "TOWERGEOM_FHCAL")
  | Jet.CEMC_TOWER_SUB1 => Some ("TOWER_CALIB_CEMC_RETOWER_SUB1", "TOWERGEOM_HCALIN")
  | Jet.HCALIN_TOWER_SUB1 => Some ("TOWER_CALIB_HCALIN_SUB1", "TOWERGEOM_HCALIN")
  | Jet.HCALOUT_TOWER_SUB1 => Some ("TOWER_CALIB_HCALOUT_SUB1", "TOWERGEOM_HCALOUT")
  | Jet.OTHER _ => None
  end.

(** The body of the loop after [assert(tower_geom)]: lines 138 to 156. *)
Definition make_jet (input : Jet.SRC) (tower : RawTower F) (tower_geom : RawTowerGeom F)
    (vtxz : F) : JetV1 F :=
  let r := get_center_radius tower_geom in
  let phi := atan2 (get_center_y tower_geom) (get_center_x tower_geom) in
  let z0 := get_center_z tower_geom in
  let z := fsub z0 vtxz in
  let eta := asinh (fdiv z r) in
  let pt := fdiv (get_energy tower) (cosh eta) in
  let px := fmul pt (cos phi) in
  let py := fmul pt (sin phi) in
  let pz := fmul pt (sinh eta) in
  {| get_px := px;
     get_py := py;
     get_pz := pz;
     get_e := get_energy tower;
     comp := insert_comp JetV1_comp_new input (get_id tower) |}.

(** The [for] loop over [towers->getTowers()], [pseudojets] being the
    vector built so far. *)
Fixpoint tower_loop (input : Jet.SRC) (geom : gmap keytype (RawTowerGeom F)) (vtxz : F)
    (range : list (keytype * RawTower F)) (pseudojets : list (JetV1 F)) : M (list (JetV1 F)) :=
  match range with
  | [] => mret pseudojets
  | (_, tower) :: range' =>
      let tower_geom := get_tower_geometry geom (get_key tower) in
      c_assert (bool_decide (is_Some tower_geom));;
      match tower_geom with
      | None => undefined
      | Some tower_geom =>
          let jet := make_jet input tower tower_geom vtxz in
          tower_loop input geom vtxz range' (pseudojets ++ [jet])
      end
  end.

Definition get_input (this : TowerJetInput) (topNode : PHCompositeNode F)
  : M (list (JetV1 F)) :=
  when (0 <? _verbosity this)%Z (cout msg_entered);;
  vertexmap ← getClass find_GlobalVertexMap topNode "GlobalVertexMap";
  match vertexmap with
  | None =>
      cout msg_fatal;;
      c_assert false;;
      mret []
  | Some vertexmap =>
      match node_names (_input this) with
      | None => mret []
      | Some (tower_node, geom_node) =>
          towers ← getClass find_RawTowerContainer topNode tower_node;
          geom ← getClass find_RawTowerGeomContainer topNode geom_node;
          match towers, geom with
          | Some towers, Some geom =>
              vtx ← begin_second vertexmap;
              match vtx with
              | None => mret []
              | Some vtx =>
                  let vtxz := get_z vtx in
                  if isnan vtxz then
                    once ← get_once;
                    when once (set_once false;; cout msg_nan);;
                    mret []
                  else
                    pseudojets ← tower_loop (_input this) geom vtxz (getTowers towers) [];
                    when (0 <? _verbosity this)%Z (cout msg_exited);;
                    mret pseudojets
              end
          | _, _ => mret []
          end
      end
  end.

(** ** The calls of one process *)

(** The calls of [get_input] a process makes, one after the other: the
    first finds [once] as the program started it, each later one as the
    call before left it, and a call that does not return is the last. *)
Fixpoint process (calls : list (TowerJetInput * PHCompositeNode F)) (once : bool)
  : list (run (list (JetV1 F))) :=
  match calls with
  | [] => []
  | (this, topNode) :: calls' =>
      let r := get_input this topNode once in
      r :: match result r with
           | Returned _ => process calls' (once_after r)
           | _ => []
           end
  end.

(** [static bool once = true;] *)
Definition once_at_start : bool := true.

(** The first vertex of the event is there and its [z] is NaN. *)
Definition nan_vertex (topNode : PHCompositeNode F) : bool :=
  match find_GlobalVertexMap topNode "GlobalVertexMap" with
  | Some ((_, Some vtx) :: _) => isnan (get_z vtx)
  | _ => false
  end.

(** The selector is known and both its containers are in the node tree:
    the call goes on to read the vertex. *)
Definition reads_vertex (this : TowerJetInput) (topNode : PHCompositeNode F) : bool :=
  match node_names (_input this) with
  | Some (tower_node, geom_node) =>
      bool_decide (is_Some (find_RawTowerContainer topNode tower_node))
      && bool_decide (is_Some (find_RawTowerGeomContainer topNode geom_node))
  | None => false
  end.

(** The call reads the vertex and finds it NaN. *)
Definition meets_nan_vertex (call : TowerJetInput * PHCompositeNode F) : bool :=
  reads_vertex call.1 call.2 && nan_vertex call.2.

(** ** Reading a run *)

(** One pass through the body of the loop: the jet made of an entry of
    the range, or [None] when [assert(tower_geom)] fails. *)
Definition loop_body (input : Jet.SRC) (geom : gmap keytype (RawTowerGeom F)) (vtxz : F)
    (entry : keytype * RawTower F) : option (JetV1 F) :=
  (fun tower_geom => make_jet input entry.2 tower_geom vtxz)
    <$> get_tower_geometry geom (get_key entry.2).

(** The trace lines of a verbose object. *)
Definition entered (this : TowerJetInput) : list event :=
  if (0 <? _verbosity this)%Z then [Cout msg_entered] else [].
Definition exited (this : TowerJetInput) : list event :=
  if (0 <? _verbosity this)%Z then [Cout msg_exited] else [].

End Model.

(** ** Events to run the code on *)

(** The example of the specification: one tower of energy 10 centred at
    (100, 0, 50), radius 100, and the vertex at z = 0. *)
Definition example_tower : RawTower R := {| get_id := 1%N; get_energy := 10%R |}.

Definition example_geom : RawTowerGeom R :=
  {| get_center_x := 100%R; get_center_y := 0%R; get_center_z := 50%R;
     get_center_radius := 100%R |}.

Definition example_vertex : GlobalVertex R := {| get_z := 0%R |}.

(** A node tree with a vertex map and the two nodes of the selector
    [Jet::CEMC_TOWER]. *)
Definition cemc_event {F : Type} (vertexmap : GlobalVertexMap F)
    (towers : RawTowerContainer F) (geom : gmap keytype (RawTowerGeom F))
  : PHCompositeNode F :=
  <["GlobalVertexMap" := NodeVertexMap vertexmap]>
  (<["TOWER_CALIB_CEMC" := NodeTowers towers]>
  (<["TOWERGEOM_CEMC" := NodeGeom geom]> ∅)).

Definition example_event : PHCompositeNode R :=
  cemc_event [(0%N, Some example_vertex)] [(1%N, example_tower)]
    {[1%N := example_geom]}.

Definition example_jet : JetV1 R :=
  make_jet (A:=ideal) Jet.CEMC_TOWER example_tower example_geom 0%R.

(** The example once more, in binary64, with the vertex at [z]. *)
Definition tower64 : RawTower float :=
  {| get_id := 1%N; get_energy := 10%float |}.

Definition geom64 : RawTowerGeom float :=
  {| get_center_x := 100%float; get_center_y := 0%float;
     get_center_z := 50%float; get_center_radius := 100%float |}.

Definition event64 (z : float) : PHCompositeNode float :=
  cemc_event [(0%N, Some {| get_z := z |})] [(1%N, tower64)] {[1%N := geom64]}.

(** The same event with an empty geometry container. *)
Definition event64_no_geom (z : float) : PHCompositeNode float :=
  cemc_event [(0%N, Some {| get_z := z |})] [(1%N, tower64)] ∅.

(** * The runs of [get_input] *)

(** Unfolding the operations of [M] in a goal. *)
Ltac run_simpl :=
  unfold mbind, M_bind, mret, M_ret, when, cout, emit, abort, undefined,
    c_assert, get_once, set_once; cbn.

Section Runs.
Context {F : Type} {A : Arith F}.

(** ** The runs of [get_input], path by path *)

Lemma tower_loop_run input geom vtxz range pseudojets once :
  tower_loop input geom vtxz range pseudojets once =
  Run (match mapM (loop_body input geom vtxz) range with
       | Some jets => Returned (pseudojets ++ jets)
       | None => Aborted
       end) once [].
Proof.
  revert pseudojets. induction range as [|[key tower] range IH]; intros pseudojets.
  - cbn. by rewrite app_nil_r.
  - assert (Hbody : loop_body input geom vtxz (key, tower) =
      (fun tower_geom => make_jet input tower tower_geom vtxz)
        <$> get_tower_geometry geom (get_key tower)) by reflexivity.
    cbn [tower_loop mapM].
    destruct (get_tower_geometry geom (get_key tower)) as [tower_geom|];
      run_simpl; rewrite Hbody; cbn; [|done].
    rewrite IH. cbn.
    destruct (mapM _ range) as [jets|]; cbn; [|done].
    by rewrite <- app_assoc.
Qed.

Section Paths.
Variables (this : TowerJetInput) (topNode : PHCompositeNode F) (once : bool).

Local Ltac run_path :=
  unfold get_input, getClass, begin_second, entered, exited;
  destruct (0 <? _verbosity this)%Z; run_simpl;
  repeat match goal with H : _ = _ |- _ => rewrite H; run_simpl end.

(** Lines 47 to 53. *)
Lemma get_input_no_vertexmap :
  find_GlobalVertexMap topNode "GlobalVertexMap" = None ->
  get_input this topNode once =
  Run Aborted once (entered this ++ [GetClass "GlobalVertexMap"; Cout msg_fatal]).
Proof. intros Hvm. run_path; reflexivity. Qed.

(** Lines 105 to 107. *)
Lemma get_input_unknown_source vertexmap :
  find_GlobalVertexMap topNode "GlobalVertexMap" = Some vertexmap ->
  node_names (_input this) = None ->
  get_input this topNode once =
  Run (Returned []) once (entered this ++ [GetClass "GlobalVertexMap"]).
Proof. intros Hvm Hsrc. run_path; reflexivity. Qed.

(** The [if (!towers||!geom)] of the branch taken. *)
Lemma get_input_missing_product vertexmap tower_node geom_node :
  find_GlobalVertexMap topNode "GlobalVertexMap" = Some vertexmap ->
  node_names (_input this) = Some (tower_node, geom_node) ->
  find_RawTowerContainer topNode tower_node = None \/
  find_RawTowerGeomContainer topNode geom_node = None ->
  get_input this topNode once =
  Run (Returned []) once
    (entered this ++ [GetClass "GlobalVertexMap"; GetClass tower_node; GetClass geom_node]).
Proof.
  intros Hvm Hsrc [Hnone|Hnone]; run_path;
    destruct (find_RawTowerContainer topNode tower_node);
    destruct (find_RawTowerGeomContainer topNode geom_node);
    try discriminate; reflexivity.
Qed.

Section Products.
Variables (vertexmap : GlobalVertexMap F) (tower_node geom_node : string)
  (towers : RawTowerContainer F) (geom : gmap keytype (RawTowerGeom F)).
Hypothesis Hvm : find_GlobalVertexMap topNode "GlobalVertexMap" = Some vertexmap.
Hypothesis Hsrc : node_names (_input this) = Some (tower_node, geom_node).
Hypothesis Htowers : find_RawTowerContainer topNode tower_node = Some towers.
Hypothesis Hgeom : find_RawTowerGeomContainer topNode geom_node = Some geom.

Let lookups : list event :=
  entered this ++ [GetClass "GlobalVertexMap"; GetClass tower_node; GetClass geom_node].

(** Line 110 on a vertex map without entries. *)
Lemma get_input_empty_vertexmap :
  vertexmap = [] ->
  get_input this topNode once = Run Undefined once lookups.
Proof using Hvm Hsrc Htowers Hgeom. intros ->. subst lookups. run_path; reflexivity. Qed.

(** Line 113. *)
Lemma get_input_null_vertex key rest :
  vertexmap = (key, None) :: rest ->
  get_input this topNode once = Run (Returned []) once lookups.
Proof using Hvm Hsrc Htowers Hgeom. intros ->. subst lookups. run_path; reflexivity. Qed.

(** Lines 115 to 126. *)
Lemma get_input_nan_vertex key vtx rest :
  vertexmap = (key, Some vtx) :: rest ->
  isnan (get_z vtx) = true ->
  get_input this topNode once =
  Run (Returned []) false (lookups ++ if once then [Cout msg_nan] else []).
Proof using Hvm Hsrc Htowers Hgeom.
  intros -> Hnan. subst lookups. run_path; destruct once; reflexivity.
Qed.

(** Lines 128 to 163. *)
Lemma get_input_loop key vtx rest :
  vertexmap = (key, Some vtx) :: rest ->
  isnan (get_z vtx) = false ->
  get_input this topNode once =
  match mapM (loop_body (_input this) geom (get_z vtx)) (getTowers towers) with
  | Some jets => Run (Returned jets) once (lookups ++ exited this)
  | None => Run Aborted once lookups
  end.
Proof using Hvm Hsrc Htowers Hgeom.
  intros -> Hnan. subst lookups. unfold get_input, getClass, begin_second.
  run_simpl. rewrite Hvm, Hsrc. run_simpl. rewrite Htowers, Hgeom. run_simpl.
  rewrite Hnan, tower_loop_run. unfold entered, exited.
  destruct (0 <? _verbosity this)%Z; cbn;
    destruct (mapM _ _); reflexivity.
Qed.

End Products.
End Paths.

(** ** The loop, entry by entry *)

Lemma loop_body_Some input geom vtxz entry jet :
  loop_body input geom vtxz entry = Some jet <->
  exists tower_geom,
    get_tower_geometry geom (get_key entry.2) = Some tower_geom /\
    jet = make_jet input entry.2 tower_geom vtxz.
Proof.
  unfold loop_body. destruct (get_tower_geometry geom (get_key entry.2)); cbn.
  - split; [intros [= <-]; eauto|intros (? & [= <-] & ->); done].
  - split; [done|intros (? & ? & _); done].
Qed.

Lemma loop_body_None input geom vtxz entry :
  loop_body input geom vtxz entry = None <->
  get_tower_geometry geom (get_key entry.2) = None.
Proof.
  unfold loop_body. by destruct (get_tower_geometry geom (get_key entry.2)).
Qed.

(** The [i]-th jet of a loop that ran to its end is made of the [i]-th
    entry of the range. *)
Lemma loop_jets_lookup input geom vtxz range jets i jet :
  mapM (loop_body input geom vtxz) range = Some jets ->
  jets !! i = Some jet ->
  exists entry tower_geom,
    range !! i = Some entry /\
    get_tower_geometry geom (get_key entry.2) = Some tower_geom /\
    jet = make_jet input entry.2 tower_geom vtxz.
Proof.
  intros Hloop%mapM_Some_1 Hjet.
  destruct (Forall2_lookup_r _ _ _ _ _ Hloop Hjet) as (entry & Hentry & Hbody).
  apply loop_body_Some in Hbody as (tower_geom & Hgeom & ->). eauto.
Qed.

Lemma loop_jets_length input geom vtxz range jets :
  mapM (loop_body input geom vtxz) range = Some jets ->
  length jets = length range.
Proof. intros Hloop%mapM_Some_1. symmetry. by eapply Forall2_length. Qed.

(** The loop stops in the assertion exactly when an entry of the range
    has no geometry. *)
Lemma loop_asserts input geom vtxz range :
  mapM (loop_body input geom vtxz) range = None <->
  exists entry, entry ∈ range /\ get_tower_geometry geom (get_key entry.2) = None.
Proof.
  rewrite mapM_None, Exists_exists.
  split; intros (entry & Hin & Hnone); exists entry; split; try done;
    by apply (loop_body_None input geom vtxz entry).
Qed.

(** ** The lines of a run *)

Lemma elem_of_entered this line :
  Cout line ∈ entered this <-> line = msg_entered /\ (0 < _verbosity this)%Z.
Proof.
  unfold entered. destruct (Z.ltb_spec 0 (_verbosity this)).
  - rewrite list_elem_of_singleton. split; [intros [= ->]; done|intros [-> _]; done].
  - rewrite elem_of_nil. split; [done|lia].
Qed.

Lemma elem_of_exited this line :
  Cout line ∈ exited this <-> line = msg_exited /\ (0 < _verbosity this)%Z.
Proof.
  unfold exited. destruct (Z.ltb_spec 0 (_verbosity this)).
  - rewrite list_elem_of_singleton. split; [intros [= ->]; done|intros [-> _]; done].
  - rewrite elem_of_nil. split; [done|lia].
Qed.

Lemma GetClass_not_entered this name : GetClass name ∉ entered this.
Proof.
  unfold entered. destruct (0 <? _verbosity this)%Z;
    [by intros [=]%list_elem_of_singleton|apply not_elem_of_nil].
Qed.

Lemma GetClass_not_exited this name : GetClass name ∉ exited this.
Proof.
  unfold exited. destruct (0 <? _verbosity this)%Z;
    [by intros [=]%list_elem_of_singleton|apply not_elem_of_nil].
Qed.

End Runs.

(** The paths of [get_input this topNode once] in a goal, one subgoal
    each, with the run of the path in place of the call. *)
Ltac get_input_paths this topNode once :=
  let vertexmap := fresh "vertexmap" in
  let tower_node := fresh "tower_node" in
  let geom_node := fresh "geom_node" in
  let towers := fresh "towers" in
  let geom := fresh "geom" in
  let key := fresh "key" in
  let vtx := fresh "vtx" in
  let rest := fresh "rest" in
  let jets := fresh "jets" in
  let Hvm := fresh "Hvm" in
  let Hsrc := fresh "Hsrc" in
  let Htowers := fresh "Htowers" in
  let Hgeom := fresh "Hgeom" in
  let Hnan := fresh "Hnan" in
  let Hloop := fresh "Hloop" in
  destruct (find_GlobalVertexMap topNode "GlobalVertexMap")
    as [vertexmap|] eqn:Hvm;
  [ destruct (node_names (_input this)) as [[tower_node geom_node]|] eqn:Hsrc;
    [ destruct (find_RawTowerContainer topNode tower_node) as [towers|] eqn:Htowers;
      [ destruct (find_RawTowerGeomContainer topNode geom_node) as [geom|] eqn:Hgeom;
        [ destruct vertexmap as [|[key [vtx|]] rest];
          [ rewrite (get_input_empty_vertexmap this topNode once _ _ _ _ _
                       Hvm Hsrc Htowers Hgeom eq_refl)
          | destruct (isnan (get_z vtx)) eqn:Hnan;
            [ rewrite (get_input_nan_vertex this topNode once _ _ _ _ _
                         Hvm Hsrc Htowers Hgeom _ _ _ eq_refl Hnan)
            | rewrite (get_input_loop this topNode once _ _ _ _ _
                         Hvm Hsrc Htowers Hgeom _ _ _ eq_refl Hnan);
              destruct (mapM (loop_body (_input this) geom (get_z vtx)) (getTowers towers))
                as [jets|] eqn:Hloop ]
          | rewrite (get_input_null_vertex this topNode once _ _ _ _ _
                       Hvm Hsrc Htowers Hgeom _ _ eq_refl) ]
        | rewrite (get_input_missing_product this topNode once _ _ _
                     Hvm Hsrc (or_intror Hgeom)) ]
      | rewrite (get_input_missing_product this topNode once _ _ _
                   Hvm Hsrc (or_introl Htowers)) ]
    | rewrite (get_input_unknown_source this topNode once _ Hvm Hsrc) ]
  | rewrite (get_input_no_vertexmap this topNode once Hvm) ].

Section Calls.
Context {F : Type} {A : Arith F}.
Implicit Types (this : TowerJetInput) (topNode : PHCompositeNode F) (once : bool).

(** What a call returns, without the flag and without the lines. *)
Lemma get_input_result this topNode once :
  result (get_input this topNode once) =
  match find_GlobalVertexMap topNode "GlobalVertexMap" with
  | None => Aborted
  | Some vertexmap =>
      match node_names (_input this) with
      | None => Returned []
      | Some (tower_node, geom_node) =>
          match find_RawTowerContainer topNode tower_node,
                find_RawTowerGeomContainer topNode geom_node with
          | Some towers, Some geom =>
              match vertexmap with
              | [] => Undefined
              | (_, None) :: _ => Returned []
              | (_, Some vtx) :: _ =>
                  if isnan (get_z vtx) then Returned []
                  else match mapM (loop_body (_input this) geom (get_z vtx))
                               (getTowers towers) with
                       | Some jets => Returned jets
                       | None => Aborted
                       end
              end
          | _, _ => Returned []
          end
      end
  end.
Proof.
  get_input_paths this topNode once; cbn; rewrite ?Hnan, ?Hloop; reflexivity.
Qed.

Lemma nan_vertex_result this topNode once :
  nan_vertex topNode = true -> result (get_input this topNode once) = Returned [].
Proof.
  unfold nan_vertex. rewrite get_input_result.
  destruct (find_GlobalVertexMap topNode "GlobalVertexMap") as [[|[key [vtx|]] rest]|];
    try discriminate.
  intros ->. destruct (node_names (_input this)) as [[tower_node geom_node]|]; [|done].
  destruct (find_RawTowerContainer topNode tower_node); [|done].
  by destruct (find_RawTowerGeomContainer topNode geom_node).
Qed.

(** A call leaves [once] false exactly when it found it false or met a
    NaN vertex. *)
Lemma get_input_once_after this topNode once :
  once_after (get_input this topNode once) =
  once && negb (meets_nan_vertex (this, topNode)).
Proof.
  unfold meets_nan_vertex, reads_vertex, nan_vertex. cbn [fst snd].
  get_input_paths this topNode once; cbn; rewrite ?Hnan, ?andb_false_r;
    destruct once; reflexivity.
Qed.

Lemma filter_nan_entered this : filter (eq (Cout msg_nan)) (entered this) = [].
Proof. unfold entered. by destruct (0 <? _verbosity this)%Z. Qed.

Lemma filter_nan_exited this : filter (eq (Cout msg_nan)) (exited this) = [].
Proof. unfold exited. by destruct (0 <? _verbosity this)%Z. Qed.

(** The NaN warnings of a call: one when it found [once] true and met a
    NaN vertex, none otherwise. *)
Lemma get_input_nan_lines this topNode once :
  filter (eq (Cout msg_nan)) (events (get_input this topNode once)) =
  if once && meets_nan_vertex (this, topNode) then [Cout msg_nan] else [].
Proof.
  unfold meets_nan_vertex, reads_vertex, nan_vertex. cbn [fst snd].
  get_input_paths this topNode once; cbn [events];
    rewrite ?filter_app, ?filter_nan_entered, ?filter_nan_exited, ?Hnan,
      ?andb_false_r;
    destruct once; reflexivity.
Qed.

Lemma get_input_nan_line this topNode once :
  Cout msg_nan ∈ events (get_input this topNode once) <->
  once = true /\ meets_nan_vertex (this, topNode) = true.
Proof.
  transitivity (Cout msg_nan ∈
    filter (eq (Cout msg_nan)) (events (get_input this topNode once))).
  { rewrite list_elem_of_filter. split; [by intros Hin|by intros [_ Hin]]. }
  rewrite get_input_nan_lines.
  destruct once, (meets_nan_vertex (this, topNode)); cbn;
    rewrite ?list_elem_of_singleton, ?elem_of_nil; intuition congruence.
Qed.

Implicit Type calls : list (TowerJetInput * PHCompositeNode F).

(** Every run of a process is a call of [get_input] on the call of the
    same rank. *)
Lemma process_lookup calls once i r :
  process calls once !! i = Some r ->
  exists call once', calls !! i = Some call /\ r = get_input call.1 call.2 once'.
Proof.
  revert once i. induction calls as [|[this topNode] calls IH]; intros once i; [done|].
  destruct i as [|i]; cbn.
  - intros [= <-]. by exists (this, topNode), once.
  - destruct (result (get_input this topNode once)); [|done..].
    intros Hrun. by apply IH in Hrun.
Qed.

(** The run of rank [i] writes the NaN warning exactly when the process
    started with [once] true, the call of rank [i] meets a NaN vertex
    and no call before it did. *)
Lemma process_nan_line calls once i r :
  process calls once !! i = Some r ->
  Cout msg_nan ∈ events r <->
  once = true /\
  (exists call, calls !! i = Some call /\ meets_nan_vertex call = true) /\
  (forall j call, j < i -> calls !! j = Some call -> meets_nan_vertex call = false).
Proof.
  revert once i. induction calls as [|[this topNode] calls IH]; intros once i; [done|].
  destruct i as [|i]; cbn.
  - intros [= <-]. rewrite get_input_nan_line. split.
    + intros [-> Hmeets]. split; [done|]. split; [eauto|]. intros j call Hlt. lia.
    + intros (-> & (call & [= <-] & Hmeets) & _). done.
  - destruct (result (get_input this topNode once)); [|done..].
    intros Hrun. rewrite (IH _ _ Hrun), get_input_once_after. split.
    + intros ([-> Hnot%negb_true_iff]%andb_true_iff & Hcall & Hbefore).
      split; [done|]. split; [done|].
      intros [|j] call Hlt; cbn; [by intros [= <-]|].
      apply Hbefore. lia.
    + intros (-> & Hcall & Hbefore). split; [|split; [done|]].
      * cbn. apply negb_true_iff. by apply (Hbefore 0); [lia|].
      * intros j call Hlt Hj. apply (Hbefore (S j)); [lia|done].
Qed.

(** The NaN warnings of a whole process: none when it started with
    [once] false, at most one otherwise. *)
Lemma process_nan_lines calls once :
  length (filter (eq (Cout msg_nan)) (concat (events <$> process calls once)))
  <= (if once then 1 else 0).
Proof.
  revert once. induction calls as [|[this topNode] calls IH]; intros once.
  - cbn. destruct once; lia.
  - cbn [process fmap list_fmap concat]. rewrite filter_app, length_app.
    rewrite get_input_nan_lines.
    assert (Hlater :
      length (filter (eq (Cout msg_nan)) (concat (events <$>
        match result (get_input this topNode once) with
        | Returned _ => process calls (once_after (get_input this topNode once))
        | _ => []
        end)))
      <= (if once && negb (meets_nan_vertex (this, topNode)) then 1 else 0)).
    { destruct (result (get_input this topNode once)).
      - rewrite <- get_input_once_after. apply IH.
      - cbn. destruct (_ && _); lia.
      - cbn. destruct (_ && _); lia. }
    revert Hlater. destruct once, (meets_nan_vertex (this, topNode)); cbn; lia.
Qed.

End Calls.

(** * What the specification states *)

Section Claims.
Context {F : Type} {A : Arith F}.
Implicit Types (this : TowerJetInput) (topNode : PHCompositeNode F) (once : bool).

(** C6. When the node tree holds no [GlobalVertexMap], [get_input] ends
    in the failed assertion, whatever the selector: it returns nothing,
    and the fatal line has been written. *)
Theorem missing_vertexmap_aborts this topNode once :
  find_GlobalVertexMap topNode "GlobalVertexMap" = None ->
  result (get_input this topNode once) = Aborted /\
  Cout msg_fatal ∈ events (get_input this topNode once).
Proof.
  intros Hnone. get_input_paths this topNode once; try discriminate.
  cbn. split; [reflexivity|]. set_solver.
Qed.

(** C10. When the vertex map has entries and the first one holds a null
    vertex, [get_input] returns the empty vector, whatever the selector
    and the containers: it does not abort, it leaves the flag [once] as
    it was and writes neither the NaN warning nor the fatal line; an
    object that is not verbose writes no line at all. *)
Theorem null_first_vertex_empty this topNode once key rest :
  find_GlobalVertexMap topNode "GlobalVertexMap" = Some ((key, None) :: rest) ->
  result (get_input this topNode once) = Returned [] /\
  once_after (get_input this topNode once) = once /\
  (Cout msg_nan ∉ events (get_input this topNode once)) /\
  (Cout msg_fatal ∉ events (get_input this topNode once)) /\
  ((_verbosity this <= 0)%Z ->
   forall line, Cout line ∉ events (get_input this topNode once)).
Proof.
  intros Hnull.
  assert (Hlines : forall names line,
    Cout line ∈ entered this ++ (GetClass <$> names) ->
    line = msg_entered /\ (0 < _verbosity this)%Z).
  { intros names line [Hin|Hin]%elem_of_app; [by apply elem_of_entered|].
    apply list_elem_of_fmap in Hin as (name & [=] & _). }
  assert (Hquiet : forall names,
    (Cout msg_nan ∉ entered this ++ (GetClass <$> names)) /\
    (Cout msg_fatal ∉ entered this ++ (GetClass <$> names)) /\
    ((_verbosity this <= 0)%Z ->
     forall line, Cout line ∉ entered this ++ (GetClass <$> names))).
  { intros names. repeat split.
    - by intros [[=] _]%Hlines.
    - by intros [[=] _]%Hlines.
    - intros Hle line [_ Hlt]%Hlines. lia. }
  get_input_paths this topNode once; simplify_eq; cbn;
    (split; [reflexivity|split; [reflexivity|]]);
    first [apply (Hquiet [_; _; _])|apply (Hquiet [_])].
Qed.

(** C2, as the code has it. When the first vertex of the vertex map has
    a NaN [z], [get_input] returns the empty vector, whatever the
    selector and whatever the node tree holds besides. *)
Theorem nan_vertex_empty this topNode once key vtx rest :
  find_GlobalVertexMap topNode "GlobalVertexMap" = Some ((key, Some vtx) :: rest) ->
  isnan (get_z vtx) = true ->
  result (get_input this topNode once) = Returned [].
Proof.
  intros Hfirst Hisnan.
  get_input_paths this topNode once; simplify_eq; try reflexivity; congruence.
Qed.

(** C3, as the code has it. With a selector that is none of the eight
    the code knows, on a node tree that holds a [GlobalVertexMap],
    [get_input] returns the empty vector and the vertex map is the one
    node it looks up: no tower container, no geometry container. *)
Theorem unknown_source_empty this topNode once code vertexmap :
  _input this = Jet.OTHER code ->
  find_GlobalVertexMap topNode "GlobalVertexMap" = Some vertexmap ->
  result (get_input this topNode once) = Returned [] /\
  forall name, GetClass name ∈ events (get_input this topNode once) ->
    name = "GlobalVertexMap".
Proof.
  intros Hother Hsome.
  assert (Hunknown : node_names (_input this) = None) by (by rewrite Hother).
  rewrite (get_input_unknown_source this topNode once vertexmap Hsome Hunknown).
  split; [reflexivity|]. cbn. intros name [Hin|Hin]%elem_of_app.
  - by apply GetClass_not_entered in Hin.
  - by apply list_elem_of_singleton in Hin as [= ->].
Qed.

(** C4. With a selector the code knows, both its containers in the node
    tree, a geometry for every tower of the tower container and a first
    vertex whose [z] is finite, [get_input] returns as many jets as the
    container has towers: no tower is left out, whatever its energy. *)
Theorem every_tower_converted this topNode once
    tower_node geom_node towers geom key vtx rest :
  node_names (_input this) = Some (tower_node, geom_node) ->
  find_RawTowerContainer topNode tower_node = Some towers ->
  find_RawTowerGeomContainer topNode geom_node = Some geom ->
  (forall entry, entry ∈ getTowers towers ->
     is_Some (get_tower_geometry geom (get_key entry.2))) ->
  find_GlobalVertexMap topNode "GlobalVertexMap" = Some ((key, Some vtx) :: rest) ->
  isfinite (get_z vtx) = true ->
  exists jets,
    result (get_input this topNode once) = Returned jets /\
    length jets = length (getTowers towers).
Proof.
  intros Hnames Hsome_towers Hsome_geom Hall Hfirst Hfinite.
  get_input_paths this topNode once; simplify_eq.
  - apply nan_not_finite in Hnan. congruence.
  - exists jets. split; [reflexivity|]. by eapply loop_jets_length.
  - apply loop_asserts in Hloop as (entry & Hin & Hnone).
    destruct (Hall entry Hin) as [tower_geom Hsome]. congruence.
Qed.

(** C5. Every jet [get_input] returns has one constituent, the pair of
    the selector and of the id of the tower it was made of, and the jets
    come in the order of the towers: the [i]-th jet is made of the
    [i]-th tower [getTowers()] gives. *)
Theorem jet_names_its_tower this topNode once jets i jet :
  result (get_input this topNode once) = Returned jets ->
  jets !! i = Some jet ->
  exists tower_node geom_node towers entry,
    node_names (_input this) = Some (tower_node, geom_node) /\
    find_RawTowerContainer topNode tower_node = Some towers /\
    getTowers towers !! i = Some entry /\
    comp jet = [(_input this, get_id entry.2)].
Proof.
  intros Hresult Hjet. revert Hresult.
  get_input_paths this topNode once; cbn; intros Hresult; simplify_eq.
  destruct (loop_jets_lookup _ _ _ _ _ _ _ Hloop Hjet)
    as (entry & tower_geom & Hentry & _ & ->).
  exists tower_node, geom_node, towers, entry. done.
Qed.

(** C7, as the code has it. Once the loop over the towers is reached
    (the vertex map is there, the selector is known, both containers are
    there, the first vertex is not null and its [z] is not NaN), a tower
    whose key has no entry in the geometry container makes [get_input]
    end in the failed assertion: no vector is returned, neither a
    partial nor an empty one. *)
Theorem missing_geometry_aborts this topNode once
    tower_node geom_node towers geom key vtx rest entry :
  find_GlobalVertexMap topNode "GlobalVertexMap" = Some ((key, Some vtx) :: rest) ->
  isnan (get_z vtx) = false ->
  node_names (_input this) = Some (tower_node, geom_node) ->
  find_RawTowerContainer topNode tower_node = Some towers ->
  find_RawTowerGeomContainer topNode geom_node = Some geom ->
  entry ∈ getTowers towers ->
  get_tower_geometry geom (get_key entry.2) = None ->
  result (get_input this topNode once) = Aborted.
Proof.
  intros Hfirst Hisnan Hnames Hsome_towers Hsome_geom Hin Hnone.
  get_input_paths this topNode once; simplify_eq; try reflexivity; try congruence.
  assert (Hstop : mapM (loop_body (_input this) geom (get_z vtx)) (getTowers towers) = None)
    by (apply loop_asserts; eauto).
  congruence.
Qed.

(** C8. In the calls of one process, started with [once] true, the NaN
    warning is written by one call at most: by the first call that
    meets a NaN vertex and by no call after it. Every call made on an
    event whose first vertex has a NaN [z] returns the empty vector, the
    first such call and every later one. *)
Theorem nan_warning_once (calls : list (TowerJetInput * PHCompositeNode F)) :
  (forall i r, process calls once_at_start !! i = Some r ->
     Cout msg_nan ∈ events r <->
     (exists call, calls !! i = Some call /\ meets_nan_vertex call = true) /\
     (forall j call, j < i -> calls !! j = Some call -> meets_nan_vertex call = false)) /\
  length (filter (eq (Cout msg_nan))
            (concat (events <$> process calls once_at_start))) <= 1 /\
  (forall i r call, process calls once_at_start !! i = Some r ->
     calls !! i = Some call ->
     nan_vertex call.2 = true ->
     result r = Returned []).
Proof.
  split; [|split].
  - intros i r Hrun. rewrite (process_nan_line _ _ _ _ Hrun).
    unfold once_at_start. intuition.
  - apply (process_nan_lines calls true).
  - intros i r call Hrun Hcall Hnan.
    apply process_lookup in Hrun as (call' & once' & Hcall' & ->).
    simplify_eq. by apply nan_vertex_result.
Qed.

(** C9. What [get_input] returns is a function of the selector, of the
    vertex map and of the two containers of the selector: two calls that
    agree on these return the same outcome, the same jets with the same
    numbers in the same order, whatever the flag [once], the verbosity
    and the rest of the node tree are at each call. *)
Theorem same_inputs_same_jets this1 this2 topNode1 topNode2 once1 once2 :
  _input this1 = _input this2 ->
  find_GlobalVertexMap topNode1 "GlobalVertexMap" =
    find_GlobalVertexMap topNode2 "GlobalVertexMap" ->
  (forall tower_node geom_node,
     node_names (_input this1) = Some (tower_node, geom_node) ->
     find_RawTowerContainer topNode1 tower_node =
       find_RawTowerContainer topNode2 tower_node /\
     find_RawTowerGeomContainer topNode1 geom_node =
       find_RawTowerGeomContainer topNode2 geom_node) ->
  result (get_input this1 topNode1 once1) = result (get_input this2 topNode2 once2).
Proof.
  intros Hinput Hvertexmap Hcontainers. rewrite !get_input_result.
  rewrite <- Hinput, <- Hvertexmap.
  destruct (find_GlobalVertexMap topNode1 "GlobalVertexMap"); [|reflexivity].
  destruct (node_names (_input this1)) as [[tower_node geom_node]|]; [|reflexivity].
  by destruct (Hcontainers _ _ eq_refl) as [<- <-].
Qed.

(** X1. A missing data product is recoverable: with a vertex map in the
    node tree and a selector the code knows, when the tower container or
    the geometry container of the selector is not in the tree,
    [get_input] returns the empty vector and leaves [once] as it was;
    both nodes have been looked up, also when the first was missing. *)
Theorem missing_container_empty this topNode once vertexmap tower_node geom_node :
  find_GlobalVertexMap topNode "GlobalVertexMap" = Some vertexmap ->
  node_names (_input this) = Some (tower_node, geom_node) ->
  find_RawTowerContainer topNode tower_node = None \/
  find_RawTowerGeomContainer topNode geom_node = None ->
  result (get_input this topNode once) = Returned [] /\
  once_after (get_input this topNode once) = once /\
  GetClass tower_node ∈ events (get_input this topNode once) /\
  GetClass geom_node ∈ events (get_input this topNode once).
Proof.
  intros Hsome Hnames Hnone.
  rewrite (get_input_missing_product this topNode once _ _ _ Hsome Hnames Hnone).
  cbn. repeat split; apply elem_of_app; right.
  - apply list_elem_of_further, list_elem_of_here.
  - do 2 apply list_elem_of_further. apply list_elem_of_here.
Qed.

End Claims.

(** * The worked example, in exact arithmetic *)

Section Hyperbolic.
Local Open Scope R_scope.

Lemma cosh_pos (x : R) : 0 < Rtrigo_def.cosh x.
Proof.
  unfold Rtrigo_def.cosh. pose proof (exp_pos x). pose proof (exp_pos (- x)). lra.
Qed.

Lemma cosh_sqr_minus_sinh_sqr (x : R) :
  Rtrigo_def.cosh x * Rtrigo_def.cosh x - Rtrigo_def.sinh x * Rtrigo_def.sinh x = 1.
Proof.
  unfold Rtrigo_def.cosh, Rtrigo_def.sinh.
  assert (Hinv : exp x * exp (- x) = 1).
  { rewrite <- exp_plus, Rplus_opp_r. apply exp_0. }
  nra.
Qed.

Lemma cosh_arcsinh (x : R) : Rtrigo_def.cosh (arcsinh x) = sqrt (1 + x * x).
Proof.
  pose proof (cosh_pos (arcsinh x)) as Hpos.
  pose proof (cosh_sqr_minus_sinh_sqr (arcsinh x)) as Hsqr.
  rewrite sinh_arcsinh in Hsqr.
  replace (1 + x * x) with (Rtrigo_def.cosh (arcsinh x) * Rtrigo_def.cosh (arcsinh x)) by lra.
  symmetry. apply sqrt_square. lra.
Qed.

Lemma Ratan2_pos_axis (x : R) : 0 < x -> Ratan2 0 x = 0.
Proof.
  intros Hpos. unfold Ratan2. destruct (Rlt_dec 0 x); [|contradiction].
  replace (0 / x) with 0 by (field; lra). apply atan_0.
Qed.

(** The bounds on the square root of 5/4 the example needs. *)
Lemma sqrt_5_4_bounds : 1.11803 < sqrt (5 / 4) < 1.11804.
Proof.
  assert (Hnonneg : 0 <= sqrt (5 / 4)) by apply sqrt_pos.
  assert (Hsqr : sqrt (5 / 4) * sqrt (5 / 4) = 5 / 4) by (apply sqrt_sqrt; lra).
  split; nra.
Qed.

End Hyperbolic.

(** The run of the example, in exact arithmetic. *)
Lemma example_run once :
  get_input (A:=ideal) (TowerJetInput_new Jet.CEMC_TOWER) example_event once =
  Run (Returned [example_jet]) once
    [GetClass "GlobalVertexMap"; GetClass "TOWER_CALIB_CEMC"; GetClass "TOWERGEOM_CEMC"].
Proof.
  rewrite (get_input_loop (A:=ideal) (TowerJetInput_new Jet.CEMC_TOWER) example_event once
    [(0%N, Some example_vertex)] "TOWER_CALIB_CEMC" "TOWERGEOM_CEMC"
    [(1%N, example_tower)] {[1%N := example_geom]}
    eq_refl eq_refl eq_refl eq_refl 0%N example_vertex [] eq_refl eq_refl).
  reflexivity.
Qed.

Section Numbers.
Local Open Scope R_scope.

(** The momentum of the example, in closed form. *)
Lemma example_momentum :
  get_px example_jet = 10 / sqrt (5 / 4) /\
  get_py example_jet = 0 /\
  get_pz example_jet = 10 / sqrt (5 / 4) * (1 / 2) /\
  get_e example_jet = 10.
Proof.
  unfold example_jet, make_jet, example_tower, example_geom.
  cbn [get_px get_py get_pz get_e get_energy get_center_x get_center_y
       get_center_z get_center_radius fsub fdiv fmul atan2 asinh cosh sinh
       cos sin ideal].
  replace ((50 - 0) / 100) with (1 / 2) by lra.
  rewrite cosh_arcsinh, sinh_arcsinh, Ratan2_pos_axis, cos_0, sin_0 by lra.
  replace (1 + 1 / 2 * (1 / 2)) with (5 / 4) by lra.
  repeat split; lra.
Qed.

(** The momentum of the example against the numbers of the
    specification. *)
Lemma example_numbers :
  Rabs (get_px example_jet - 8.9443) <= 1e-4 /\
  Rabs (get_py example_jet - 0) <= 1e-4 /\
  Rabs (get_pz example_jet - 4.4721) <= 1e-4 /\
  get_e example_jet = 10.
Proof.
  destruct example_momentum as (-> & -> & -> & ->).
  destruct sqrt_5_4_bounds as [Hlow Hhigh].
  set (s := sqrt (5 / 4)) in *.
  assert (Hpt : 10 / s * s = 10) by (field; lra).
  set (pt := 10 / s) in *.
  assert (Hpt_low : 8.9442 <= pt) by nra.
  assert (Hpt_high : pt <= 8.9444) by nra.
  repeat split; try (apply Rabs_le; lra).
Qed.

End Numbers.

(** C1. For a tower of the container with its geometry and the vertex of
    the event, the jet [get_input] returns for it has
    [phi = atan2(centerY, centerX)], [eta = asinh((centerZ - vtxz) /
    centerRadius)], [pt = E / cosh(eta)], [px = pt * cos(phi)],
    [py = pt * sin(phi)], [pz = pt * sinh(eta)], and the energy of the
    tower as its energy, in every arithmetic. In exact arithmetic the
    example of the specification (energy 10, centre (100, 0, 50), radius
    100, vertex z 0) gives px, py, pz within 1e-4 of 8.9443, 0, 4.4721,
    and energy 10. *)
Theorem kinematics :
  (forall (F : Type) (A : Arith F) (this : TowerJetInput)
      (topNode : PHCompositeNode F) (once : bool)
      tower_node geom_node towers geom key vtx rest jets i jet entry tower_geom,
    node_names (_input this) = Some (tower_node, geom_node) ->
    find_RawTowerContainer topNode tower_node = Some towers ->
    find_RawTowerGeomContainer topNode geom_node = Some geom ->
    find_GlobalVertexMap topNode "GlobalVertexMap" = Some ((key, Some vtx) :: rest) ->
    result (get_input this topNode once) = Returned jets ->
    getTowers towers !! i = Some entry ->
    get_tower_geometry geom (get_key entry.2) = Some tower_geom ->
    jets !! i = Some jet ->
    let E := get_energy entry.2 in
    let vtxz := get_z vtx in
    let phi := atan2 (get_center_y tower_geom) (get_center_x tower_geom) in
    let eta :=
      asinh (fdiv (fsub (get_center_z tower_geom) vtxz)
                  (get_center_radius tower_geom)) in
    let pt := fdiv E (cosh eta) in
    get_px jet = fmul pt (cos phi) /\
    get_py jet = fmul pt (sin phi) /\
    get_pz jet = fmul pt (sinh eta) /\
    get_e jet = E) /\
  (exists jet : JetV1 R,
    result (get_input (A:=ideal) (TowerJetInput_new Jet.CEMC_TOWER)
              example_event once_at_start) = Returned [jet] /\
    (Rabs (get_px jet - 8.9443) <= 1e-4)%R /\
    (Rabs (get_py jet - 0) <= 1e-4)%R /\
    (Rabs (get_pz jet - 4.4721) <= 1e-4)%R /\
    get_e jet = 10%R).
Proof.
  split.
  - intros F A this topNode once tower_node geom_node towers geom key vtx rest
      jets i jet entry tower_geom Hnames Htowers Hgeom Hvertex Hresult Hentry
      Htower_geom Hjet.
    revert Hresult.
    get_input_paths this topNode once; cbn; intros Hresult; simplify_eq.
    destruct (loop_jets_lookup _ _ _ _ _ _ _ Hloop Hjet)
      as (entry' & tower_geom' & Hentry' & Htower_geom' & ->).
    simplify_eq. repeat split.
  - exists example_jet. split; [by rewrite example_run|]. apply example_numbers.
Qed.

(** * The claims on concrete events *)

(** C2, against the claim as stated: plus infinity is not finite, and
    on an event whose vertex has this [z] the tower is converted, with
    every libm. *)
Lemma infinite_vertex_converted :
  PrimFloat.is_finite PrimFloat.infinity = false /\
  forall L : Libm, exists jet,
    result (get_input (A:=binary64 L) (TowerJetInput_new Jet.CEMC_TOWER)
              (event64 PrimFloat.infinity) once_at_start) = Returned [jet].
Proof.
  split; [reflexivity|]. intros L. eexists.
  rewrite (get_input_loop (A:=binary64 L) (TowerJetInput_new Jet.CEMC_TOWER)
    (event64 PrimFloat.infinity) once_at_start _ _ _ _ _
    eq_refl eq_refl eq_refl eq_refl _ _ _ eq_refl eq_refl).
  reflexivity.
Qed.

(** The amended C2 on the binary64 event with a NaN vertex, with every
    libm. *)
Lemma nan_vertex_empty_witness :
  PrimFloat.is_nan PrimFloat.nan = true /\
  forall L : Libm,
    result (get_input (A:=binary64 L) (TowerJetInput_new Jet.CEMC_TOWER)
              (event64 PrimFloat.nan) once_at_start) = Returned [].
Proof.
  split; [reflexivity|]. intros L.
  apply (nan_vertex_empty (A:=binary64 L) (TowerJetInput_new Jet.CEMC_TOWER)
    (event64 PrimFloat.nan) once_at_start 0%N {| get_z := PrimFloat.nan |} []);
    reflexivity.
Defined.

(** C3, against the claim as stated: with a selector the code does not
    know, on a node tree without [GlobalVertexMap], the call ends in the
    failed assertion. *)
Lemma unknown_source_without_vertexmap_aborts :
  result (get_input (A:=ideal) (TowerJetInput_new (Jet.OTHER 0))
            (∅ : PHCompositeNode R) once_at_start) = Aborted.
Proof. by rewrite get_input_no_vertexmap. Qed.

(** The amended C3 on the example event, read with a selector the code
    does not know. *)
Lemma unknown_source_empty_witness :
  result (get_input (A:=ideal) (TowerJetInput_new (Jet.OTHER 0))
            example_event once_at_start) = Returned [] /\
  forall name,
    GetClass name ∈ events (get_input (A:=ideal) (TowerJetInput_new (Jet.OTHER 0))
                              example_event once_at_start) ->
    name = "GlobalVertexMap".
Proof.
  apply (unknown_source_empty (A:=ideal) (TowerJetInput_new (Jet.OTHER 0))
    example_event once_at_start 0%N [(0%N, Some example_vertex)]); reflexivity.
Defined.

(** C4 on the example event: one tower, one jet. *)
Lemma every_tower_converted_witness :
  exists jets,
    result (get_input (A:=ideal) (TowerJetInput_new Jet.CEMC_TOWER)
              example_event once_at_start) = Returned jets /\
    length jets = 1.
Proof.
  apply (every_tower_converted (A:=ideal) (TowerJetInput_new Jet.CEMC_TOWER)
    example_event once_at_start "TOWER_CALIB_CEMC" "TOWERGEOM_CEMC"
    [(1%N, example_tower)] {[1%N := example_geom]} 0%N example_vertex []);
    try reflexivity.
  intros entry ->%list_elem_of_singleton. by exists example_geom.
Defined.

(** C5 on the example event: the jet names tower 1 of the CEMC. *)
Lemma jet_names_its_tower_witness :
  exists tower_node geom_node towers entry,
    node_names Jet.CEMC_TOWER = Some (tower_node, geom_node) /\
    find_RawTowerContainer example_event tower_node = Some towers /\
    getTowers towers !! 0 = Some entry /\
    comp example_jet = [(Jet.CEMC_TOWER, get_id entry.2)].
Proof.
  apply (jet_names_its_tower (A:=ideal) (TowerJetInput_new Jet.CEMC_TOWER)
    example_event once_at_start [example_jet] 0 example_jet);
    [by rewrite example_run|reflexivity].
Defined.

(** C6 on the empty node tree. *)
Lemma missing_vertexmap_aborts_witness :
  result (get_input (A:=ideal) (TowerJetInput_new Jet.CEMC_TOWER)
            (∅ : PHCompositeNode R) once_at_start) = Aborted /\
  Cout msg_fatal ∈ events (get_input (A:=ideal) (TowerJetInput_new Jet.CEMC_TOWER)
                             (∅ : PHCompositeNode R) once_at_start).
Proof.
  apply (missing_vertexmap_aborts (A:=ideal) (TowerJetInput_new Jet.CEMC_TOWER)
    ∅ once_at_start). reflexivity.
Defined.

(** C8 on three events in a row, the first two with a NaN vertex: the
    first call writes the warning, the second does not, both return the
    empty vector and the third call converts its tower, with every libm. *)
Example nan_warning_once_example (L : Libm) :
  let cemc := TowerJetInput_new Jet.CEMC_TOWER in
  let runs :=
    process (A:=binary64 L)
      [(cemc, event64 PrimFloat.nan); (cemc, event64 PrimFloat.nan);
       (cemc, event64 0%float)] once_at_start in
  (result <$> runs) !! 0 = Some (Returned []) /\
  (result <$> runs) !! 1 = Some (Returned []) /\
  (length <$> (events <$> runs)) = [4; 3; 3] /\
  (events <$> runs) !! 0 =
    Some [GetClass "GlobalVertexMap"; GetClass "TOWER_CALIB_CEMC";
          GetClass "TOWERGEOM_CEMC"; Cout msg_nan] /\
  (once_after <$> runs) = [false; false; false] /\
  exists jet, (result <$> runs) !! 2 = Some (Returned [jet]).
Proof. repeat split. by eexists. Qed.

(** C7, against the claim as stated: the tower of this event has no
    entry in the geometry container, the vertex is NaN, and the call
    returns the empty vector, with every libm. *)
Lemma nan_vertex_hides_missing_geometry :
  find_RawTowerContainer (event64_no_geom PrimFloat.nan) "TOWER_CALIB_CEMC"
    = Some [(1%N, tower64)] /\
  find_RawTowerGeomContainer (event64_no_geom PrimFloat.nan) "TOWERGEOM_CEMC"
    = Some ∅ /\
  get_tower_geometry (∅ : gmap keytype (RawTowerGeom float)) (get_key tower64)
    = None /\
  forall L : Libm,
    result (get_input (A:=binary64 L) (TowerJetInput_new Jet.CEMC_TOWER)
              (event64_no_geom PrimFloat.nan) once_at_start) = Returned [].
Proof.
  do 3 (split; [reflexivity|]). intros L.
  by rewrite (get_input_nan_vertex (A:=binary64 L) (TowerJetInput_new Jet.CEMC_TOWER)
    (event64_no_geom PrimFloat.nan) once_at_start _ _ _ _ _
    eq_refl eq_refl eq_refl eq_refl _ _ _ eq_refl eq_refl).
Qed.

(** The amended C7 on the example event with an empty geometry
    container. *)
Lemma missing_geometry_aborts_witness :
  result (get_input (A:=ideal) (TowerJetInput_new Jet.CEMC_TOWER)
            (cemc_event [(0%N, Some example_vertex)] [(1%N, example_tower)] ∅)
            once_at_start) = Aborted.
Proof.
  apply (missing_geometry_aborts (A:=ideal) (TowerJetInput_new Jet.CEMC_TOWER)
    (cemc_event [(0%N, Some example_vertex)] [(1%N, example_tower)] ∅)
    once_at_start "TOWER_CALIB_CEMC" "TOWERGEOM_CEMC"
    [(1%N, example_tower)] ∅ 0%N example_vertex [] (1%N, example_tower));
    try reflexivity.
  apply list_elem_of_here.
Defined.

(** C9 on the example event: a quiet call that finds [once] true and a
    verbose call that finds it false, on a node tree with one more node. *)
Lemma same_inputs_same_jets_witness :
  result (get_input (A:=ideal) {| _verbosity := 0; _input := Jet.CEMC_TOWER |}
            example_event true) =
  result (get_input (A:=ideal) {| _verbosity := 1; _input := Jet.CEMC_TOWER |}
            (<["TOWER_CALIB_HCALIN" := NodeOther]> example_event) false).
Proof.
  apply (same_inputs_same_jets (A:=ideal)); [reflexivity|reflexivity|].
  intros tower_node geom_node [= <- <-]. split; reflexivity.
Defined.

(** C10 on the example event with a null vertex in place of the vertex. *)
Lemma null_first_vertex_empty_witness :
  let this := TowerJetInput_new Jet.CEMC_TOWER in
  let topNode : PHCompositeNode R :=
    cemc_event [(0%N, None)] [(1%N, example_tower)] {[1%N := example_geom]} in
  result (get_input (A:=ideal) this topNode once_at_start) = Returned [] /\
  once_after (get_input (A:=ideal) this topNode once_at_start) = once_at_start /\
  (Cout msg_nan ∉ events (get_input (A:=ideal) this topNode once_at_start)) /\
  (Cout msg_fatal ∉ events (get_input (A:=ideal) this topNode once_at_start)) /\
  ((_verbosity this <= 0)%Z ->
   forall line, Cout line ∉ events (get_input (A:=ideal) this topNode once_at_start)).
Proof.
  apply (null_first_vertex_empty (A:=ideal) (TowerJetInput_new Jet.CEMC_TOWER)
    (cemc_event [(0%N, None)] [(1%N, example_tower)] {[1%N := example_geom]})
    once_at_start 0%N []). reflexivity.
Defined.

(** C1 on the example event: the formulas, at the numbers of the example. *)
Lemma kinematics_witness :
  get_px example_jet =
    (10 / Rtrigo_def.cosh (arcsinh ((50 - 0) / 100)) * Rtrigo_def.cos (Ratan2 0 100))%R /\
  get_py example_jet =
    (10 / Rtrigo_def.cosh (arcsinh ((50 - 0) / 100)) * Rtrigo_def.sin (Ratan2 0 100))%R /\
  get_pz example_jet =
    (10 / Rtrigo_def.cosh (arcsinh ((50 - 0) / 100))
     * Rtrigo_def.sinh (arcsinh ((50 - 0) / 100)))%R /\
  get_e example_jet = 10%R.
Proof.
  apply (proj1 kinematics R ideal (TowerJetInput_new Jet.CEMC_TOWER)
    example_event once_at_start "TOWER_CALIB_CEMC" "TOWERGEOM_CEMC"
    [(1%N, example_tower)] {[1%N := example_geom]} 0%N example_vertex []
    [example_jet] 0 example_jet (1%N, example_tower) example_geom);
    reflexivity.
Defined.

(** X1 on a node tree that holds a vertex map and nothing else. *)
Lemma missing_container_empty_witness :
  let this := TowerJetInput_new Jet.HCALIN_TOWER in
  let topNode : PHCompositeNode R := {["GlobalVertexMap" := NodeVertexMap []]} in
  result (get_input (A:=ideal) this topNode once_at_start) = Returned [] /\
  once_after (get_input (A:=ideal) this topNode once_at_start) = once_at_start /\
  GetClass "TOWER_CALIB_HCALIN" ∈ events (get_input (A:=ideal) this topNode once_at_start) /\
  GetClass "TOWERGEOM_HCALIN" ∈ events (get_input (A:=ideal) this topNode once_at_start).
Proof.
  apply (missing_container_empty (A:=ideal) (TowerJetInput_new Jet.HCALIN_TOWER)
    {["GlobalVertexMap" := NodeVertexMap []]} once_at_start []
    "TOWER_CALIB_HCALIN" "TOWERGEOM_HCALIN"); [reflexivity|reflexivity|].
  left. reflexivity.
Defined.

(** * More of [TowerJetInput] *)

(** ** [TowerJetInput::identify] *)

(** [endl], as the text it adds to the stream. *)
Definition endl : string := String (Ascii.ascii_of_nat 10) EmptyString.

(** What [identify] writes to [os] for a selector after the heading:
    lines 34 to 38, nothing when no test of the chain holds. *)
Definition identify_label (input : Jet.SRC) : string :=
  match input with
  | Jet.CEMC_TOWER => "TOWER_CEMC to Jet::CEMC_TOWER"
  | Jet.HCALIN_TOWER => "TOWER_HCALIN to Jet::HCALIN_TOWER"
  | Jet.HCALOUT_TOWER => "TOWER_HCALOUT to Jet::HCALOUT_TOWER"
  | Jet.FEMC_TOWER => "TOWER_FEMC to Jet::FEMC_TOWER"
  | Jet.FHCAL_TOWER => "TOWER_FHCAL to Jet::FHCAL_TOWER"
  | _ => ""
  end.

(** The text [identify] writes to [os]. *)
Definition identify (this : TowerJetInput) : string :=
  String.append "   TowerJetInput: "
    (String.append (identify_label (_input this)) endl).

(** ** The node lookups of a run *)

(** The names a run looked up, in the order of the lookups. *)
Definition lookups_of (evs : list event) : list string :=
  omap (fun e => match e with GetClass name => Some name | Cout _ => None end) evs.

Section MoreRuns.
Context {F : Type} {A : Arith F}.
Implicit Types (this : TowerJetInput) (topNode : PHCompositeNode F) (once : bool).

(** The run of a call, path by path, in one equation. *)
Lemma get_input_run this topNode once :
  get_input this topNode once =
  match find_GlobalVertexMap topNode "GlobalVertexMap" with
  | None =>
      Run Aborted once (entered this ++ [GetClass "GlobalVertexMap"; Cout msg_fatal])
  | Some vertexmap =>
      match node_names (_input this) with
      | None => Run (Returned []) once (entered this ++ [GetClass "GlobalVertexMap"])
      | Some (tower_node, geom_node) =>
          let lookups :=
            entered this ++
            [GetClass "GlobalVertexMap"; GetClass tower_node; GetClass geom_node] in
          match find_RawTowerContainer topNode tower_node,
                find_RawTowerGeomContainer topNode geom_node with
          | Some towers, Some geom =>
              match vertexmap with
              | [] => Run Undefined once lookups
              | (_, None) :: _ => Run (Returned []) once lookups
              | (_, Some vtx) :: _ =>
                  if isnan (get_z vtx)
                  then Run (Returned []) false
                         (lookups ++ if once then [Cout msg_nan] else [])
                  else match mapM (loop_body (_input this) geom (get_z vtx))
                               (getTowers towers) with
                       | Some jets => Run (Returned jets) once (lookups ++ exited this)
                       | None => Run Aborted once lookups
                       end
              end
          | _, _ => Run (Returned []) once lookups
          end
      end
  end.
Proof.
  get_input_paths this topNode once; cbn; rewrite ?Hnan, ?Hloop; reflexivity.
Qed.

(** X2. [get_input] ends in a failed assertion in two situations and in
    no other: the node tree holds no [GlobalVertexMap], or the loop over
    the towers is reached (a selector the code knows, both containers,
    a first vertex that is not null and whose [z] is not NaN) and a
    tower has no entry in the geometry container. *)
Theorem aborts_iff this topNode once :
  result (get_input this topNode once) = Aborted <->
  find_GlobalVertexMap topNode "GlobalVertexMap" = None \/
  exists tower_node geom_node towers geom key vtx rest entry,
    node_names (_input this) = Some (tower_node, geom_node) /\
    find_RawTowerContainer topNode tower_node = Some towers /\
    find_RawTowerGeomContainer topNode geom_node = Some geom /\
    find_GlobalVertexMap topNode "GlobalVertexMap" = Some ((key, Some vtx) :: rest) /\
    isnan (get_z vtx) = false /\
    entry ∈ getTowers towers /\
    get_tower_geometry geom (get_key entry.2) = None.
Proof.
  split.
  - get_input_paths this topNode once; cbn; try discriminate; [|by left].
    intros _. right. apply loop_asserts in Hloop as (entry & Hin & Hnone).
    by exists tower_node, geom_node, towers, geom, key, vtx, rest, entry.
  - intros [Hnone|(tower_node & geom_node & towers & geom & key & vtx & rest & entry
      & Hnames & Htowers & Hgeom & Hvm & Hnan & Hin & Hnone)].
    + by rewrite get_input_run, Hnone.
    + rewrite get_input_run, Hvm, Hnames, Htowers, Hgeom, Hnan.
      assert (Hstop : mapM (loop_body (_input this) geom (get_z vtx)) (getTowers towers)
                      = None) by (apply loop_asserts; eauto).
      by rewrite Hstop.
Qed.

(** X3. The one place where [get_input] leaves defined behaviour is line
    110: [begin()] of the vertex map is dereferenced without a test, so
    the behaviour is undefined exactly when the selector is known, both
    containers are in the node tree and the vertex map has no entry. *)
Theorem undefined_iff this topNode once :
  result (get_input this topNode once) = Undefined <->
  find_GlobalVertexMap topNode "GlobalVertexMap" = Some [] /\
  exists tower_node geom_node,
    node_names (_input this) = Some (tower_node, geom_node) /\
    is_Some (find_RawTowerContainer topNode tower_node) /\
    is_Some (find_RawTowerGeomContainer topNode geom_node).
Proof.
  split.
  - get_input_paths this topNode once; cbn; try discriminate.
    intros _. split; [reflexivity|]. exists tower_node, geom_node.
    rewrite Htowers, Hgeom. eauto.
  - intros (Hvm & tower_node & geom_node & Hnames & [towers Htowers] & [geom Hgeom]).
    by rewrite get_input_run, Hvm, Hnames, Htowers, Hgeom.
Qed.

Lemma omap_lookups_entered this : lookups_of (entered this) = [].
Proof. unfold entered. by destruct (0 <? _verbosity this)%Z. Qed.

Lemma omap_lookups_exited this : lookups_of (exited this) = [].
Proof. unfold exited. by destruct (0 <? _verbosity this)%Z. Qed.

(** X4. Every call looks up [GlobalVertexMap] first. It then looks up
    the tower node and the geometry node of its selector, in this order
    and both, exactly when the vertex map is there and the selector is
    known; it looks up no other node and none twice. *)
Theorem lookups_of_run this topNode once :
  lookups_of (events (get_input this topNode once)) =
  match find_GlobalVertexMap topNode "GlobalVertexMap", node_names (_input this) with
  | Some _, Some (tower_node, geom_node) => ["GlobalVertexMap"; tower_node; geom_node]
  | _, _ => ["GlobalVertexMap"]
  end.
Proof.
  unfold lookups_of. get_input_paths this topNode once; cbn [events];
    rewrite ?omap_app;
    fold (lookups_of (entered this)); fold (lookups_of (exited this));
    rewrite ?omap_lookups_entered, ?omap_lookups_exited;
    try destruct once; reflexivity.
Qed.

(** What a lookup finds, in terms of the node tree. *)
Lemma find_GlobalVertexMap_Some topNode name vertexmap :
  find_GlobalVertexMap topNode name = Some vertexmap <->
  topNode !! name = Some (NodeVertexMap vertexmap).
Proof.
  unfold find_GlobalVertexMap.
  destruct (topNode !! name) as [[]|]; split; intros; by simplify_eq.
Qed.

Lemma find_RawTowerContainer_Some topNode name towers :
  find_RawTowerContainer topNode name = Some towers <->
  topNode !! name = Some (NodeTowers towers).
Proof.
  unfold find_RawTowerContainer.
  destruct (topNode !! name) as [[]|]; split; intros; by simplify_eq.
Qed.

Lemma find_RawTowerGeomContainer_Some topNode name geom :
  find_RawTowerGeomContainer topNode name = Some geom <->
  topNode !! name = Some (NodeGeom geom).
Proof.
  unfold find_RawTowerGeomContainer.
  destruct (topNode !! name) as [[]|]; split; intros; by simplify_eq.
Qed.

(** Putting a vertex map where a vertex map was changes no other lookup. *)
Lemma insert_vertexmap_other topNode name vertexmap vertexmap' :
  topNode !! name = Some (NodeVertexMap vertexmap) ->
  forall name',
    find_RawTowerContainer (<[name := NodeVertexMap vertexmap']> topNode) name' =
      find_RawTowerContainer topNode name' /\
    find_RawTowerGeomContainer (<[name := NodeVertexMap vertexmap']> topNode) name' =
      find_RawTowerGeomContainer topNode name'.
Proof.
  intros Hnode name'.
  unfold find_RawTowerContainer, find_RawTowerGeomContainer, PHCompositeNode in *.
  destruct (decide (name = name')) as [<-|Hne].
  - by rewrite lookup_insert_eq, Hnode.
  - by rewrite lookup_insert_ne.
Qed.

(** X5. Of the vertex map [get_input] reads the first entry only: a
    vertex map with the same first entry and other entries after it
    gives the same run (the same outcome, flag and events). *)
Theorem only_first_vertex_read this topNode once first rest rest' :
  find_GlobalVertexMap topNode "GlobalVertexMap" = Some (first :: rest) ->
  get_input this (<["GlobalVertexMap" := NodeVertexMap (first :: rest')]> topNode) once =
  get_input this topNode once.
Proof.
  intros Hvm. rewrite !get_input_run, Hvm.
  assert (Hvm' : find_GlobalVertexMap
      (<["GlobalVertexMap" := NodeVertexMap (first :: rest')]> topNode) "GlobalVertexMap"
      = Some (first :: rest')).
  { apply find_GlobalVertexMap_Some. unfold PHCompositeNode. apply lookup_insert_eq. }
  rewrite Hvm'. apply find_GlobalVertexMap_Some in Hvm.
  destruct (node_names (_input this)) as [[tower_node geom_node]|]; [|reflexivity].
  destruct (insert_vertexmap_other _ _ _ (first :: rest') Hvm tower_node) as [-> _].
  destruct (insert_vertexmap_other _ _ _ (first :: rest') Hvm geom_node) as [_ ->].
  by destruct first as [key [vtx|]].
Qed.

(** The call returns from the end of the loop over the towers. *)
Definition loop_completed this topNode once : Prop :=
  reads_vertex this topNode = true /\
  (exists key vtx rest,
     find_GlobalVertexMap topNode "GlobalVertexMap" = Some ((key, Some vtx) :: rest) /\
     isnan (get_z vtx) = false) /\
  exists jets, result (get_input this topNode once) = Returned jets.

Lemma entered_line this topNode once :
  Cout msg_entered ∈ events (get_input this topNode once) <-> (0 < _verbosity this)%Z.
Proof.
  assert (Hentered : forall evs,
    Cout msg_entered ∉ evs ->
    Cout msg_entered ∈ entered this ++ evs <-> (0 < _verbosity this)%Z).
  { intros evs Hnot. rewrite elem_of_app, elem_of_entered. intuition. }
  get_input_paths this topNode once; cbn [events];
    rewrite <- ?app_assoc; apply Hentered;
    rewrite ?elem_of_app, ?elem_of_exited, !elem_of_cons, elem_of_nil;
    try destruct once; rewrite ?elem_of_cons, ?elem_of_nil;
    intuition discriminate.
Qed.

Lemma exited_line this topNode once :
  Cout msg_exited ∈ events (get_input this topNode once) <->
  (0 < _verbosity this)%Z /\ loop_completed this topNode once.
Proof.
  assert (Hnot : forall names evs,
    (forall line, Cout line ∈ evs -> line = msg_fatal \/ line = msg_nan) ->
    Cout msg_exited ∉ entered this ++ (GetClass <$> names) ++ evs).
  { intros names evs Hevs [Hin|[Hin|Hin]%elem_of_app]%elem_of_app.
    - by apply elem_of_entered in Hin as [[=] _].
    - by apply list_elem_of_fmap in Hin as (name & [=] & _).
    - by destruct (Hevs _ Hin) as [[=]|[=]]. }
  unfold loop_completed, reads_vertex.
  get_input_paths this topNode once; cbn [events result].
  - split; [intros Hin|intros (_ & _ & (? & ? & ? & [=] & _) & _)].
    by apply (Hnot [_; _; _] []) in Hin; [|by intros line ?%elem_of_nil].
  - split; [intros Hin|intros (_ & _ & (? & ? & ? & [= <- <- <-] & ?) & _); congruence].
    rewrite <- app_assoc in Hin.
    apply (Hnot [_; _; _]) in Hin; [done|].
    intros line Hline. destruct once; [|by apply elem_of_nil in Hline].
    apply list_elem_of_singleton in Hline as [= ->]. by right.
  - rewrite elem_of_app, elem_of_exited. split.
    + intros [Hin|[_ Hverbose]].
      * by apply (Hnot [_; _; _] []) in Hin; [|by intros line ?%elem_of_nil].
      * split; [done|]. split; [done|]. split; eauto 10.
    + intros [Hverbose _]. by right.
  - split; [intros Hin|intros (_ & _ & _ & jets & [=])].
    by apply (Hnot [_; _; _] []) in Hin; [|by intros line ?%elem_of_nil].
  - split; [intros Hin|intros (_ & _ & (? & ? & ? & [=] & _) & _)].
    by apply (Hnot [_; _; _] []) in Hin; [|by intros line ?%elem_of_nil].
  - split; [intros Hin|intros (_ & Hreads & _)].
    + by apply (Hnot [_; _; _] []) in Hin; [|by intros line ?%elem_of_nil].
    + done.
  - split; [intros Hin|intros (_ & Hreads & _)].
    + by apply (Hnot [_; _; _] []) in Hin; [|by intros line ?%elem_of_nil].
    + done.
  - split; [intros Hin|intros (_ & [=] & _)].
    by apply (Hnot [_] []) in Hin; [|by intros line ?%elem_of_nil].
  - split; [intros Hin|intros (_ & _ & _ & jets & [=])].
    apply (Hnot [_] [Cout msg_fatal]) in Hin; [done|].
    intros line [= ->]%list_elem_of_singleton. by left.
Qed.

(** X6. The trace lines of a verbose object: every call writes the
    entered line, before anything else; the exited line is written,
    after everything else, exactly by the calls that return from the
    end of the loop over the towers. A call that returns early (unknown
    selector, missing container, null or NaN vertex) or ends in an
    assertion writes no exited line. An object that is not verbose
    writes neither line. *)
Theorem trace_lines this topNode once :
  (Cout msg_entered ∈ events (get_input this topNode once) <->
     (0 < _verbosity this)%Z) /\
  ((0 < _verbosity this)%Z ->
     head (events (get_input this topNode once)) = Some (Cout msg_entered)) /\
  (Cout msg_exited ∈ events (get_input this topNode once) <->
     (0 < _verbosity this)%Z /\ loop_completed this topNode once) /\
  (Cout msg_exited ∈ events (get_input this topNode once) ->
     last (events (get_input this topNode once)) = Some (Cout msg_exited)).
Proof.
  split; [apply entered_line|]. split; [|split; [apply exited_line|]].
  - intros Hverbose%Z.ltb_lt. rewrite get_input_run. unfold entered. rewrite Hverbose.
    repeat case_match; reflexivity.
  - intros (Hverbose%Z.ltb_lt & Hreads & (key & vtx & rest & Hvm & Hnan)
             & jets & Hreturned)%exited_line.
    revert Hreads Hreturned. unfold reads_vertex.
    rewrite get_input_run, Hvm.
    destruct (node_names (_input this)) as [[tower_node geom_node]|]; [|done].
    destruct (find_RawTowerContainer topNode tower_node) as [towers|]; [|done].
    destruct (find_RawTowerGeomContainer topNode geom_node) as [geom|]; [|done].
    rewrite Hnan.
    destruct (mapM (loop_body (_input this) geom (get_z vtx)) (getTowers towers));
      [|done].
    intros _ _. cbn [events]. unfold exited. rewrite Hverbose.
    apply last_snoc.
Qed.

(** X7. An object as the constructor makes it writes two lines and no
    other: the fatal line, when the node tree holds no [GlobalVertexMap],
    and the NaN warning, when the call finds [once] true and meets a
    NaN vertex. *)
Theorem constructed_object_lines (input : Jet.SRC) topNode once line :
  Cout line ∈ events (get_input (TowerJetInput_new input) topNode once) <->
  (line = msg_fatal /\ find_GlobalVertexMap topNode "GlobalVertexMap" = None) \/
  (line = msg_nan /\ once = true /\
   meets_nan_vertex (TowerJetInput_new input, topNode) = true).
Proof.
  unfold meets_nan_vertex, reads_vertex, nan_vertex. cbn [fst snd].
  get_input_paths (TowerJetInput_new input) topNode once; cbn;
    rewrite ?Hnan, ?andb_false_r; try destruct once;
    rewrite ?elem_of_cons, ?elem_of_nil;
    intuition (try discriminate; try congruence).
Qed.

End MoreRuns.

(** ** What [identify] tells *)

(** The line [identify] writes when no test of its chain holds. *)
Definition identify_bare : string := String.append "   TowerJetInput: " endl.

(** X8. When [identify] names a detector, it is the detector
    [get_input] reads: for a selector with the label
    [TOWER_d to Jet::d_TOWER], [get_input] looks up the towers in
    [TOWER_CALIB_d] and the geometry in [TOWERGEOM_d]. *)
Theorem identify_agrees_with_lookups this tower_node geom_node :
  node_names (_input this) = Some (tower_node, geom_node) ->
  identify this <> identify_bare ->
  exists d : string,
    tower_node = String.append "TOWER_CALIB_" d /\
    geom_node = String.append "TOWERGEOM_" d /\
    identify this =
      String.append "   TowerJetInput: TOWER_"
        (String.append d (String.append " to Jet::"
           (String.append d (String.append "_TOWER" endl)))).
Proof.
  destruct this as [verbosity []]; cbn; intros [= <- <-] Hlabel; try done.
  - by exists "CEMC".
  - by exists "HCALIN".
  - by exists "HCALOUT".
  - by exists "FEMC".
  - by exists "FHCAL".
Qed.

(** X9. The line [identify] writes tells the selectors it names apart:
    an object whose line carries a label has the selector of every
    object that writes the same line. *)
Theorem identify_distinguishes this1 this2 :
  identify this1 <> identify_bare ->
  identify this1 = identify this2 ->
  _input this1 = _input this2.
Proof.
  destruct this1 as [verbosity1 []], this2 as [verbosity2 []]; cbn;
    intros Hlabel Hsame; try done.
Qed.

(** X10. [identify] names five of the eight selectors [get_input]
    reads: the selectors [get_input] knows and for which [identify]
    writes the bare heading are the three [_SUB1] ones. *)
Theorem identify_silent_for_sub1 this :
  identify this = identify_bare /\ is_Some (node_names (_input this)) <->
  _input this ∈ [Jet.CEMC_TOWER_SUB1; Jet.HCALIN_TOWER_SUB1; Jet.HCALOUT_TOWER_SUB1].
Proof.
  rewrite !elem_of_cons, elem_of_nil.
  destruct this as [verbosity []]; cbn; split;
    try (intros [? [? ?]]; done);
    try (intros [?|[?|[?|[]]]]; done);
    try (intros _; split; [reflexivity|by eexists]);
    try (intros _; tauto).
Qed.

(** * [PHG4TrackFastSimEval]: the projections *)

(** How a call of [AddProjection] ends: it returns and leaves the map
    [m], or the process ends in [gSystem->Exit(1)] after the lines
    written to [cout]. The map of the names of the projections to the
    columns of the tree they are given, [m_ProjectionNameMap], is a
    [map<string, int>] in the source. *)
Inductive add_outcome :=
| Added (m : gmap string nat)
| Exited (lines : list string).

Section Projections.

(** [m_MaxNumberProjections] is declared in PHG4TrackFastSimEval.h, which
    is not among the sources: the number of columns the arrays of the
    tree have, a parameter here. *)
Variable m_MaxNumberProjections : nat.

(** [PHG4TrackFastSimEval::AddProjection]. [insert] of a [std::map]
    leaves the entry of a key the map already holds. *)
Definition AddProjection (m_ProjectionNameMap : gmap string nat) (name : string)
  : add_outcome :=
  let size := size m_ProjectionNameMap in
  if (m_MaxNumberProjections <=? size)%nat then
    Exited
      [String.append "Too many projections in evaluator, maximum number is "
         (pretty m_MaxNumberProjections);
       String.append "Cannot add " name;
       "increase m_MaxNumberProjections in PHG4TrackFastSimEval, recompile and rerun"]
  else
    Added (match m_ProjectionNameMap !! name with
           | Some _ => m_ProjectionNameMap
           | None => <[name := size]> m_ProjectionNameMap
           end).

(** The calls of [AddProjection] a macro makes, one after the other,
    on the map as the constructor leaves it for the first. *)
Fixpoint AddProjections (names : list string) (m : gmap string nat) : add_outcome :=
  match names with
  | [] => Added m
  | name :: names' =>
      match AddProjection m name with
      | Added m' => AddProjections names' m'
      | Exited lines => Exited lines
      end
  end.

(** The columns of a map are the numbers below its size, each given to
    one name. *)
Definition columns_in_order (m : gmap string nat) : Prop :=
  (forall name i, m !! name = Some i -> i < size m) /\
  (forall name1 name2 i, m !! name1 = Some i -> m !! name2 = Some i -> name1 = name2) /\
  (forall i, i < size m -> exists name, m !! name = Some i).

Lemma columns_in_order_empty : columns_in_order ∅.
Proof.
  split; [|split]; intros *; rewrite ?lookup_empty, ?map_size_empty; try done. lia.
Qed.

Lemma AddProjection_columns m name m' :
  columns_in_order m ->
  AddProjection m name = Added m' ->
  columns_in_order m' /\ size m' <= m_MaxNumberProjections /\
  dom m' = {[name]} ∪ dom m.
Proof.
  intros (Hbelow & Hinj & Hsurj). unfold AddProjection.
  destruct (Nat.leb_spec m_MaxNumberProjections (size m)) as [|Hroom]; [done|].
  destruct (m !! name) as [i|] eqn:Hname; intros [= <-].
  - split; [done|]. split; [lia|].
    apply elem_of_dom_2 in Hname.
    apply set_eq. intros name'. rewrite elem_of_union, elem_of_singleton.
    split; [by right|by intros [->|?]].
  - unfold columns_in_order. rewrite (map_size_insert_None _ _ _ Hname).
    split; [split; [|split]|split].
    + intros name' i [[<- <-]|[Hne Hold]]%lookup_insert_Some; [lia|].
      apply Hbelow in Hold. lia.
    + intros name1 name2 i [[<- <-]|[Hne1 Hold1]]%lookup_insert_Some
        [[<- Heq]|[Hne2 Hold2]]%lookup_insert_Some; try done.
      * apply Hbelow in Hold2. lia.
      * apply Hbelow in Hold1. lia.
      * by eapply Hinj.
    + intros i Hi. destruct (decide (i = size m)) as [->|Hne].
      * exists name. apply lookup_insert_eq.
      * destruct (Hsurj i) as [name' Hname']; [lia|]. exists name'.
        rewrite lookup_insert_ne; [done|]. intros <-. congruence.
    + lia.
    + by rewrite dom_insert_L.
Qed.

Lemma AddProjections_columns names m m' :
  columns_in_order m ->
  size m <= m_MaxNumberProjections ->
  AddProjections names m = Added m' ->
  columns_in_order m' /\ size m' <= m_MaxNumberProjections /\
  dom m' = list_to_set names ∪ dom m.
Proof.
  revert m. induction names as [|name names IH]; intros m Hcols Hsize; cbn [AddProjections].
  - intros [= <-]. split; [done|]. split; [done|].
    rewrite list_to_set_nil. by rewrite (left_id_L ∅ (∪)).
  - destruct (AddProjection m name) as [m1|] eqn:Hadd; [|done].
    destruct (AddProjection_columns _ _ _ Hcols Hadd) as (Hcols1 & Hsize1 & Hdom1).
    intros Hrest. destruct (IH _ Hcols1 Hsize1 Hrest) as (Hcols' & Hsize' & Hdom').
    split; [done|]. split; [done|]. rewrite Hdom', Hdom1, list_to_set_cons.
    apply set_eq. intros name'. rewrite !elem_of_union. tauto.
Qed.

(** X11. After any calls of [AddProjection] that all returned, the
    map holds the names given and no other, no more than
    [m_MaxNumberProjections] of them; the columns are the numbers below
    the size of the map, each given to one name; every column is below
    [m_MaxNumberProjections], so the test for a bad index in
    [fill_track_tree] (line 334) never holds. *)
Theorem projection_columns names m :
  AddProjections names ∅ = Added m ->
  dom m = list_to_set names /\
  size m <= m_MaxNumberProjections /\
  (forall name i, m !! name = Some i -> i < size m /\ i < m_MaxNumberProjections) /\
  (forall name1 name2 i, m !! name1 = Some i -> m !! name2 = Some i -> name1 = name2) /\
  (forall i, i < size m -> exists name, m !! name = Some i).
Proof.
  intros Hadded.
  destruct (AddProjections_columns names ∅ m columns_in_order_empty) as
    ((Hbelow & Hinj & Hsurj) & Hsize & Hdom); [rewrite map_size_empty; lia|done|].
  split; [by rewrite Hdom, dom_empty_L, (right_id_L ∅ (∪))|]. split; [done|].
  split; [intros name i Hname; apply Hbelow in Hname; lia|]. by split.
Qed.

(** The process ends in the call that finds the map full. *)
Lemma AddProjections_exits names m :
  columns_in_order m ->
  (exists lines, AddProjections names m = Exited lines) <->
  exists k name,
    names !! k = Some name /\
    m_MaxNumberProjections <= size (list_to_set (take k names) ∪ dom m).
Proof.
  revert m. induction names as [|name names IH]; intros m Hcols; cbn [AddProjections].
  - split; [by intros [lines [=]]|by intros (k & name & [=] & _)].
  - unfold AddProjection at 1.
    destruct (Nat.leb_spec m_MaxNumberProjections (size m)) as [Hfull|Hroom].
    + split; [intros _|by eauto].
      exists 0, name. split; [done|].
      by rewrite take_0, list_to_set_nil, (left_id_L ∅ (∪)), size_dom.
    + set (m1 := match m !! name with Some _ => m | None => <[name:=size m]> m end).
      assert (Hadd : AddProjection m name = Added m1).
      { unfold AddProjection. destruct (Nat.leb_spec m_MaxNumberProjections (size m));
          [lia|done]. }
      destruct (AddProjection_columns _ _ _ Hcols Hadd) as (Hcols1 & _ & Hdom1).
      rewrite (IH m1 Hcols1). split.
      * intros (k & name' & Hk & Hsize). exists (S k), name'. split; [done|].
        cbn [take]. rewrite list_to_set_cons.
        replace ({[name]} ∪ list_to_set (take k names) ∪ dom m)
          with (list_to_set (take k names) ∪ dom m1); [done|].
        rewrite Hdom1. apply set_eq. intros x. rewrite !elem_of_union. tauto.
      * intros ([|k] & name' & Hk & Hsize).
        -- rewrite take_0, list_to_set_nil, (left_id_L ∅ (∪)), size_dom in Hsize. lia.
        -- exists k, name'. split; [done|].
           cbn [take] in Hsize. rewrite list_to_set_cons in Hsize.
           replace (list_to_set (take k names) ∪ dom m1)
             with ({[name]} ∪ list_to_set (take k names) ∪ dom m); [done|].
           rewrite Hdom1. apply set_eq. intros x. rewrite !elem_of_union. tauto.
Qed.

(** X12. The calls of [AddProjection] end the process exactly when a
    call is made after [m_MaxNumberProjections] different names have
    been given, whatever the name of that call: a name the map already
    holds ends the process too, once the map is full. *)
Theorem projections_exit names :
  (exists lines, AddProjections names ∅ = Exited lines) <->
  exists k name,
    names !! k = Some name /\
    m_MaxNumberProjections <= size (list_to_set (take k names) : gset string).
Proof.
  rewrite (AddProjections_exits names ∅ columns_in_order_empty).
  by setoid_rewrite dom_empty_L; setoid_rewrite (right_id_L ∅ (∪)).
Qed.

End Projections.

(** * [PHG4TrackFastSimEval]: the best matched vertex *)

(** What the loop of [fill_vertex_tree] reads of a track of the track
    map: a [SvtxTrack_FastSim] and its truth track id, or a track the
    [dynamic_cast] gives a null pointer for. The classes are declared in
    headers that are not among the sources. *)
Inductive SvtxTrack :=
| FastSimTrack (truth_track_id : Z)
| OtherTrack.

(** Of a truth particle the loop reads the id of its vertex. *)
Record PHG4Particle := {
  get_vtx_id : Z
}.

Section BestMatch.

(** The truth vertices, as the pointers [GetVtx] returns: the loop
    compares and counts them and does not look inside. A null pointer is
    [None]. *)
Context {PHG4VtxPoint : Type} `{Countable PHG4VtxPoint}.

(** The two lookups of [PHG4TruthInfoContainer] the loop calls; each
    returns a null pointer for an id it does not hold. *)
Record PHG4TruthInfoContainer := {
  GetParticle : Z -> option PHG4Particle;
  GetVtx : Z -> option PHG4VtxPoint
}.

(** [best_vtx], [best_n_match] and [vertex_match_map] of lines 411 to
    413. *)
Record match_state := {
  best_vtx : option PHG4VtxPoint;
  best_n_match : Z;
  vertex_match_map : gmap (option PHG4VtxPoint) Z
}.

Definition match_start : match_state :=
  {| best_vtx := None; best_n_match := -1; vertex_match_map := ∅ |}.

Variable m_TruthInfoContainer : PHG4TruthInfoContainer.
Variable m_TrackMap : gmap N SvtxTrack.

(** The body of the loop over the tracks of a vertex, lines 416 to 435.
    [vertex_match_map[vtx]] of an absent key is 0. *)
Definition match_track (st : match_state) (trackid : N) : outcome match_state :=
  match m_TrackMap !! trackid with
  | None => Returned st
  | Some OtherTrack => Returned st
  | Some (FastSimTrack g4trackID) =>
      match GetParticle m_TruthInfoContainer g4trackID with
      | None => Aborted
      | Some g4particle =>
          let vtx := GetVtx m_TruthInfoContainer (get_vtx_id g4particle) in
          let n_match := (default 0 (vertex_match_map st !! vtx) + 1)%Z in
          let counted := <[vtx := n_match]> (vertex_match_map st) in
          if (best_n_match st <? n_match)%Z
          then Returned {| best_vtx := vtx; best_n_match := n_match;
                           vertex_match_map := counted |}
          else Returned {| best_vtx := best_vtx st; best_n_match := best_n_match st;
                           vertex_match_map := counted |}
      end
  end.

(** The loop over the track ids of a vertex, in the order of its set. *)
Fixpoint match_tracks (tracks : list N) (st : match_state) : outcome match_state :=
  match tracks with
  | [] => Returned st
  | trackid :: tracks' =>
      match match_track st trackid with
      | Returned st' => match_tracks tracks' st'
      | Aborted => Aborted
      | Undefined => Undefined
      end
  end.

(** The truth vertex a track of the vertex is counted for: none for a
    track the loop steps over. *)
Definition truth_vertex (trackid : N) : option (option PHG4VtxPoint) :=
  match m_TrackMap !! trackid with
  | Some (FastSimTrack g4trackID) =>
      g4particle ← GetParticle m_TruthInfoContainer g4trackID;
      Some (GetVtx m_TruthInfoContainer (get_vtx_id g4particle))
  | _ => None
  end.

(** The number of tracks counted for the truth vertex [vtx]. *)
Definition n_tracks_of (vtx : option PHG4VtxPoint) (tracks : list N) : Z :=
  Z.of_nat (length (filter (eq vtx) (omap truth_vertex tracks))).

(** What the loop keeps: the map counts, and the best is a vertex with
    the largest count. *)
Definition match_counted (seen : list N) (st : match_state) : Prop :=
  (forall vtx, default 0%Z (vertex_match_map st !! vtx) = n_tracks_of vtx seen) /\
  (omap truth_vertex seen = [] -> best_vtx st = None /\ best_n_match st = (-1)%Z) /\
  (omap truth_vertex seen <> [] ->
     best_n_match st = n_tracks_of (best_vtx st) seen /\
     forall vtx, (n_tracks_of vtx seen <= best_n_match st)%Z).

Lemma n_tracks_of_nonneg vtx tracks : (0 <= n_tracks_of vtx tracks)%Z.
Proof. unfold n_tracks_of. lia. Qed.

Lemma n_tracks_of_snoc vtx seen trackid :
  n_tracks_of vtx (seen ++ [trackid]) =
  (n_tracks_of vtx seen +
   if decide (truth_vertex trackid = Some vtx) then 1 else 0)%Z.
Proof.
  unfold n_tracks_of. rewrite omap_app, filter_app, length_app.
  replace (omap truth_vertex [trackid])
    with (match truth_vertex trackid with Some vote => [vote] | None => [] end)
    by reflexivity.
  destruct (truth_vertex trackid) as [vtx'|].
  - rewrite filter_cons, filter_nil.
    destruct (decide (vtx = vtx')) as [->|Hne].
    + rewrite decide_True by done. cbn [length]. lia.
    + rewrite decide_False by congruence. cbn [length]. lia.
  - rewrite filter_nil, decide_False by done. cbn [length]. lia.
Qed.

Lemma match_counted_start : match_counted [] match_start.
Proof.
  split; [|split]; cbn; [intros vtx; by rewrite lookup_empty|done|done].
Qed.

Lemma match_track_counted seen st trackid st' :
  match_counted seen st ->
  match_track st trackid = Returned st' ->
  match_counted (seen ++ [trackid]) st'.
Proof.
  intros (Hcount & Hnone & Hsome). unfold match_track.
  assert (Hskip : truth_vertex trackid = None -> match_counted (seen ++ [trackid]) st).
  { intros Hvote. split; [|split].
    - intros vtx. rewrite n_tracks_of_snoc, Hvote, decide_False by done.
      rewrite Hcount. lia.
    - rewrite omap_app. cbn. rewrite Hvote, app_nil_r. done.
    - rewrite omap_app. cbn. rewrite Hvote, app_nil_r. intros Hseen.
      destruct (Hsome Hseen) as [Hbest Hmax]. split.
      + rewrite n_tracks_of_snoc, Hvote, decide_False by done. lia.
      + intros vtx. rewrite n_tracks_of_snoc, Hvote, decide_False by done.
        specialize (Hmax vtx). lia. }
  pose proof (eq_refl : truth_vertex trackid = truth_vertex trackid) as Hvote.
  unfold truth_vertex at 2 in Hvote.
  destruct (m_TrackMap !! trackid) as [[g4trackID|]|]; cbn in Hvote;
    try (intros [= <-]; by apply Hskip).
  destruct (GetParticle m_TruthInfoContainer g4trackID) as [g4particle|];
    cbn in Hvote; [|done].
  set (vtx := GetVtx m_TruthInfoContainer (get_vtx_id g4particle)) in *.
  rewrite Hcount.
  assert (Hcounted : forall vtx',
    default 0%Z (<[vtx := (n_tracks_of vtx seen + 1)%Z]> (vertex_match_map st) !! vtx')
    = n_tracks_of vtx' (seen ++ [trackid])).
  { intros vtx'. rewrite n_tracks_of_snoc, Hvote.
    destruct (decide (vtx = vtx')) as [<-|Hne].
    - by rewrite lookup_insert_eq, decide_True by done.
    - rewrite lookup_insert_ne, decide_False by congruence. rewrite Hcount. lia. }
  assert (Hnonempty : omap truth_vertex (seen ++ [trackid]) <> []).
  { rewrite omap_app.
    replace (omap truth_vertex [trackid]) with [vtx] by (cbn; by rewrite Hvote).
    by destruct (omap truth_vertex seen). }
  destruct (Z.ltb_spec (best_n_match st) (n_tracks_of vtx seen + 1)) as [Hlt|Hge];
    intros [= <-]; (split; [exact Hcounted|split; [by intros ?%Hnonempty|]]);
    intros _; cbn [best_vtx best_n_match].
  - split.
    + rewrite n_tracks_of_snoc, Hvote, decide_True by done. lia.
    + intros vtx'. rewrite n_tracks_of_snoc, Hvote.
      destruct (decide (Some vtx = Some vtx')) as [[= <-]|Hne]; [lia|].
      destruct (omap truth_vertex seen) as [|vote votes] eqn:Hseen.
      * unfold n_tracks_of. rewrite Hseen. cbn.
        pose proof (n_tracks_of_nonneg vtx seen). lia.
      * destruct Hsome as [_ Hmax]; [done|]. specialize (Hmax vtx'). lia.
  - destruct (omap truth_vertex seen) as [|vote votes] eqn:Hseen.
    { destruct Hnone as [_ Hminus]; [done|].
      pose proof (n_tracks_of_nonneg vtx seen). lia. }
    destruct Hsome as [Hbest Hmax]; [done|]. split.
    + rewrite n_tracks_of_snoc, Hvote.
      destruct (decide (Some vtx = Some (best_vtx st))) as [[= Heq]|Hne]; [|lia].
      rewrite <- Heq in Hbest. lia.
    + intros vtx'. rewrite n_tracks_of_snoc, Hvote. specialize (Hmax vtx').
      destruct (decide (Some vtx = Some vtx')) as [[= <-]|Hne]; lia.
Qed.

Lemma match_tracks_counted tracks seen st st' :
  match_counted seen st ->
  match_tracks tracks st = Returned st' ->
  match_counted (seen ++ tracks) st'.
Proof.
  revert seen st. induction tracks as [|trackid tracks IH]; intros seen st Hinv; cbn.
  - intros [= <-]. by rewrite app_nil_r.
  - destruct (match_track st trackid) as [st1| |] eqn:Hstep; [|done..].
    intros Hrest.
    replace (seen ++ trackid :: tracks) with ((seen ++ [trackid]) ++ tracks)
      by (by rewrite <- app_assoc).
    eapply IH; [|done]. by eapply match_track_counted.
Qed.

(** X13. When the loop over the tracks of a vertex has run to its end,
    [vertex_match_map] holds for every truth vertex the number of
    tracks counted for it, the null pointer being a vertex like the
    others; when no track was counted [best_vtx] is null and
    [best_n_match] is -1; otherwise [best_vtx] is a truth vertex with
    the largest number of tracks and [best_n_match] is that number. *)
Theorem best_match_is_majority tracks st :
  match_tracks tracks match_start = Returned st ->
  (forall vtx, default 0%Z (vertex_match_map st !! vtx) = n_tracks_of vtx tracks) /\
  (omap truth_vertex tracks = [] -> best_vtx st = None /\ best_n_match st = (-1)%Z) /\
  (omap truth_vertex tracks <> [] ->
     best_n_match st = n_tracks_of (best_vtx st) tracks /\
     (0 < best_n_match st)%Z /\
     forall vtx, (n_tracks_of vtx tracks <= best_n_match st)%Z).
Proof.
  intros Hloop.
  destruct (match_tracks_counted tracks [] _ _ match_counted_start Hloop)
    as (Hcount & Hnone & Hsome).
  cbn [app] in Hcount, Hnone, Hsome.
  split; [done|]. split; [done|]. intros Hvotes.
  destruct (Hsome Hvotes) as [Hbest Hmax]. split; [done|]. split; [|done].
  destruct (omap truth_vertex tracks) as [|vote votes] eqn:Hlist; [done|].
  assert (Hone : (1 <= n_tracks_of vote tracks)%Z).
  { unfold n_tracks_of. rewrite Hlist, filter_cons, decide_True by done.
    cbn [length]. lia. }
  specialize (Hmax vote). lia.
Qed.

(** X14. The loop ends in the failed assertion of line 427 exactly when
    a track of the vertex is in the track map, is a [SvtxTrack_FastSim]
    and its truth track id has no particle in the truth container;
    tracks that are not in the map or are not [SvtxTrack_FastSim] are
    stepped over. *)
Theorem match_tracks_aborts tracks :
  match_tracks tracks match_start = Aborted <->
  exists trackid g4trackID,
    trackid ∈ tracks /\
    m_TrackMap !! trackid = Some (FastSimTrack g4trackID) /\
    GetParticle m_TruthInfoContainer g4trackID = None.
Proof.
  generalize match_start. induction tracks as [|trackid tracks IH]; intros st; cbn.
  - split; [done|]. by intros (? & ? & ?%elem_of_nil & _).
  - unfold match_track.
    destruct (m_TrackMap !! trackid) as [[g4trackID|]|] eqn:Htrack.
    + destruct (GetParticle m_TruthInfoContainer g4trackID) as [g4particle|] eqn:Hparticle.
      * match goal with
        | |- context [if ?b then _ else _] => destruct b
        end; rewrite IH; split;
          intros (trackid' & g4trackID' & Hin & Htrack' & Hnone);
          exists trackid', g4trackID'; (split; [|done]).
        all: try (by apply list_elem_of_further).
        all: apply elem_of_cons in Hin as [->|Hin]; [congruence|done].
      * split; [intros _|done]. exists trackid, g4trackID.
        split; [apply list_elem_of_here|done].
    + rewrite IH; split;
        intros (trackid' & g4trackID' & Hin & Htrack' & Hnone);
        exists trackid', g4trackID'; (split; [|done]).
      * by apply list_elem_of_further.
      * apply elem_of_cons in Hin as [->|Hin]; [congruence|done].
    + rewrite IH; split;
        intros (trackid' & g4trackID' & Hin & Htrack' & Hnone);
        exists trackid', g4trackID'; (split; [|done]).
      * by apply list_elem_of_further.
      * apply elem_of_cons in Hin as [->|Hin]; [congruence|done].
Qed.

End BestMatch.

(** * The further properties on concrete inputs *)

(** X5 on the example event, with a null vertex and a second vertex
    after the first. *)
Lemma only_first_vertex_read_witness :
  get_input (A:=ideal) (TowerJetInput_new Jet.CEMC_TOWER)
    (<["GlobalVertexMap" :=
         NodeVertexMap [(0%N, Some example_vertex); (1%N, None);
                        (2%N, Some {| get_z := 7%R |})]]> example_event)
    once_at_start =
  get_input (A:=ideal) (TowerJetInput_new Jet.CEMC_TOWER) example_event once_at_start.
Proof.
  apply (only_first_vertex_read (A:=ideal) (TowerJetInput_new Jet.CEMC_TOWER)
    example_event once_at_start (0%N, Some example_vertex) []). reflexivity.
Defined.

(** X8 on the forward electromagnetic calorimeter. *)
Lemma identify_agrees_with_lookups_witness :
  exists d : string,
    "TOWER_CALIB_FEMC" = String.append "TOWER_CALIB_" d /\
    "TOWERGEOM_FEMC" = String.append "TOWERGEOM_" d /\
    identify (TowerJetInput_new Jet.FEMC_TOWER) =
      String.append "   TowerJetInput: TOWER_"
        (String.append d (String.append " to Jet::"
           (String.append d (String.append "_TOWER" endl)))).
Proof.
  apply (identify_agrees_with_lookups (TowerJetInput_new Jet.FEMC_TOWER));
    [reflexivity|discriminate].
Defined.

(** X9 on two objects for the inner hadronic calorimeter that differ in
    their verbosity. *)
Lemma identify_distinguishes_witness :
  _input (TowerJetInput_new Jet.HCALIN_TOWER) =
  _input {| _verbosity := 3; _input := Jet.HCALIN_TOWER |}.
Proof.
  apply identify_distinguishes; [discriminate|reflexivity].
Defined.

(** X11 with room for three projections and the names a, b, a. *)
Lemma projection_columns_witness :
  let m : gmap string nat := <["b" := 1]> (<["a" := 0]> ∅) in
  dom m = list_to_set ["a"; "b"; "a"] /\
  size m <= 3 /\
  (forall name i, m !! name = Some i -> i < size m /\ i < 3) /\
  (forall name1 name2 i, m !! name1 = Some i -> m !! name2 = Some i -> name1 = name2) /\
  (forall i, i < size m -> exists name, m !! name = Some i).
Proof.
  apply (projection_columns 3 ["a"; "b"; "a"] (<["b" := 1]> (<["a" := 0]> ∅))).
  reflexivity.
Defined.

(** A truth container in which the particle of track [id] starts at the
    vertex of the same number, the vertex 0 being unknown, and a track
    map with two tracks of particle 7, one of particle 8 and one track
    that is not a [SvtxTrack_FastSim]. *)
Definition truth_by_number : PHG4TruthInfoContainer (PHG4VtxPoint:=N) :=
  {| GetParticle := fun id => Some {| get_vtx_id := id |};
     GetVtx := fun id => if (id =? 0)%Z then None else Some (Z.to_N id) |}.

Definition four_tracks : gmap N SvtxTrack :=
  <[1%N := FastSimTrack 7]> (<[2%N := FastSimTrack 7]>
  (<[3%N := FastSimTrack 8]> (<[4%N := OtherTrack]> ∅))).

(** X13 on the tracks 3, 1, 2, 4 and 5 of a vertex: vertex 7 has two of
    them. *)
Lemma best_match_is_majority_witness :
  exists st,
    match_tracks truth_by_number four_tracks [3%N; 1%N; 2%N; 4%N; 5%N] match_start
      = Returned st /\
    best_vtx st = Some 7%N /\
    best_n_match st = 2%Z /\
    forall vtx,
      (n_tracks_of truth_by_number four_tracks vtx [3%N; 1%N; 2%N; 4%N; 5%N]
       <= best_n_match st)%Z.
Proof.
  set (st := {| best_vtx := Some 7%N; best_n_match := 2;
                vertex_match_map := <[Some 7%N := 2%Z]> (<[Some 8%N := 1%Z]> ∅) |}).
  assert (Hloop :
    match_tracks truth_by_number four_tracks [3%N; 1%N; 2%N; 4%N; 5%N] match_start
    = Returned st) by reflexivity.
  exists st. split; [exact Hloop|]. split; [reflexivity|]. split; [reflexivity|].
  apply (best_match_is_majority truth_by_number four_tracks _ _ Hloop).
  cbn. discriminate.
Defined.
